(** * crock: the time-bar state machine of [src/clock.rs], [src/clock/timebar.rs],
    [src/clock/uidata.rs] and [src/clock/ui.rs]

    Shallow embedding.  Conventions:
    - a [chrono::DateTime<Local>] is its instant in nanoseconds since the Unix epoch
      ([Z]); the local wall-clock fields are read through a fixed UTC offset [off]
      (seconds), so [second()], [minute()], [hour()] and [with_*] are the naive
      local-time computations of chrono;
    - a [std::time::Duration] is its length in nanoseconds ([N]);
    - [f64] is Rocq's primitive binary64 [float] (IEEE 754, round to nearest even),
      with [i128 as f64] / [i64 as f64] the correctly rounded conversion;
    - a panic ([unwrap] on [None], an out-of-bounds index) is [None] in an [option]
      result. *)

From Stdlib Require Import ZArith Lia Bool List String Ascii DecimalString.
From Stdlib Require Import Floats.
Import ListNotations.

Open Scope Z_scope.

(** ** chrono: instants, durations and local wall-clock fields *)

Definition NANOS_PER_SEC : Z := 1000000000.

(** [DateTime<Local>] as nanoseconds since the epoch. *)
Definition Time := Z.

(** [TimeDelta] as nanoseconds. *)
Definition TimeDelta := Z.

(** [a.signed_duration_since(b)] *)
Definition signed_duration_since (a b : Time) : TimeDelta := a - b.

(** [TimeDelta::num_seconds]: whole seconds, truncated toward zero. *)
Definition num_seconds (d : TimeDelta) : Z := Z.quot d NANOS_PER_SEC.

(** [TimeDelta::num_minutes] and [num_hours] (Rust integer division truncates). *)
Definition num_minutes (d : TimeDelta) : Z := Z.quot (num_seconds d) 60.
Definition num_hours (d : TimeDelta) : Z := Z.quot (num_seconds d) 3600.

(** [TimeDelta::seconds(s)] *)
Definition seconds (s : Z) : TimeDelta := s * NANOS_PER_SEC.

Section Local.
(** The offset of the local time zone to UTC, in seconds. *)
Variable off : Z.

(** Whole seconds of the local naive date-time since the local epoch, with [off]
    the UTC offset the zone has at the instant read (a statement relating
    readings under different offsets takes one offset per reading). *)
Definition local_secs (t : Time) : Z := Z.div t NANOS_PER_SEC + off.

(** [Timelike::second], [minute], [hour] of a [DateTime<Local>]. *)
Definition second (t : Time) : Z := Z.modulo (local_secs t) 60.
Definition minute (t : Time) : Z := Z.modulo (Z.div (local_secs t) 60) 60.
Definition hour (t : Time) : Z := Z.modulo (Z.div (local_secs t) 3600) 24.

(** [Timelike::with_second(0)], [with_minute(0)], [with_hour(0)]: only the named
    field is replaced, every other field (and the nanoseconds) is kept.  The
    result is read back through the same offset [off]; on a [DateTime<Local>]
    chrono instead returns [None] when the new local time is skipped or repeated
    by an offset change, and the new instant carries the offset in force there.
    These definitions model the case without such a change. *)
Definition with_second0 (t : Time) : option Time := Some (t - seconds (second t)).
Definition with_minute0 (t : Time) : option Time := Some (t - seconds (60 * minute t)).
Definition with_hour0 (t : Time) : option Time := Some (t - seconds (3600 * hour t)).

End Local.

(** [std::time::Duration] in nanoseconds and [Duration::as_secs]. *)
Definition Duration := N.
Definition duration_as_secs (d : Duration) : Z := Z.of_N (N.div d 1000000000).

(** ** f64 *)

Open Scope float_scope.

(** [i128 as f64]: round to nearest, ties to even, of the integer [z]. *)
Definition int_as_f64 (z : Z) : float :=
  SF2Prim (binary_normalize prec emax z 0%Z false).

(** [f64::clamp(self, min, max)] from Rust's core library:
    [if self < min { self = min; } if self > max { self = max; } self]
    (a NaN [self] is returned unchanged). *)
Definition f64_clamp (x min max : float) : float :=
  let x := if x <? min then min else x in
  if max <? x then max else x.

Close Scope float_scope.

(** ** TimeBarLength (src/clock.rs) *)

Inductive TimeBarLength :=
| Minute
| Hour
| Custom (secs : Z)
(** a count up instead of a countdown *)
| Countup (secs : Z)
| Day.

Definition as_secs (l : TimeBarLength) : Z :=
  match l with
  | Minute => 60
  | Day => 24 * 60 * 60
  | Hour => 60 * 60
  | Custom secs | Countup secs => secs
  end.

(** ** Clock (src/clock.rs): the command-line flags and the two internal fields *)

Record Clock := mkClock {
  timer : bool;
  minute_flag : bool;
  day_flag : bool;
  hour_flag : bool;
  custom : option Duration;
  countdown : option Duration;
  last_reset : option Time;
  did_notify : bool;
}.

Definition set_last_reset (c : Clock) (t : option Time) : Clock :=
  {| timer := timer c; minute_flag := minute_flag c; day_flag := day_flag c;
     hour_flag := hour_flag c; custom := custom c; countdown := countdown c;
     last_reset := t; did_notify := did_notify c |}.

Definition set_did_notify (c : Clock) (b : bool) : Clock :=
  {| timer := timer c; minute_flag := minute_flag c; day_flag := day_flag c;
     hour_flag := hour_flag c; custom := custom c; countdown := countdown c;
     last_reset := last_reset c; did_notify := b |}.

(** [Clock::timebar_len] *)
Definition timebar_len (c : Clock) : option TimeBarLength :=
  if minute_flag c then Some Minute
  else if day_flag c then Some Day
  else if hour_flag c then Some Hour
  else match countdown c with
       | Some d => Some (Countup (duration_as_secs d))
       | None =>
           match custom c with
           | Some d => Some (Custom (duration_as_secs d))
           | None => None
           end
       end.

(** [Clock::timebar_ratio]: [None] result = no time bar; [Some None] = panic on
    [self.last_reset.unwrap()]. *)
Definition timebar_ratio (c : Clock) (current_time : Time) : option (option float) :=
  match timebar_len c with
  | None => None
  | Some len =>
      match last_reset c with
      | None => Some None
      | Some lr =>
          let since := int_as_f64 (num_seconds (signed_duration_since current_time lr)) in
          Some (Some (f64_clamp (since / int_as_f64 (as_secs len))%float 0%float 1%float))
      end
  end.

(** The clock as [clap] builds it: the two [#[clap(skip)]] fields take their
    defaults ([None], [false]). *)
Definition clock_of_args (timer minute day hour : bool)
    (custom countdown : option Duration) : Clock :=
  mkClock timer minute day hour custom countdown None false.

Section ClockOps.
(** The local UTC offset, in seconds. *)
Variable off : Z.

(** [Clock::maybe_reset_since_zero].  Each [Local::now()] of the source is a
    separate reading of the clock: [now1] for [since_last_reset], [now2] for the
    wall-clock field test and [now3] for the new anchor.  [None] = panic of
    [self.last_reset.unwrap()]. *)
Definition maybe_reset_since_zero (c : Clock) (now1 now2 now3 : Time) : option Clock :=
  match timebar_len c with
  | None => Some c
  | Some len =>
      match last_reset c with
      | None => None
      | Some lr =>
          let since_last_reset := signed_duration_since now1 lr in
          match len with
          | Countup _ => Some c
          | Custom _ =>
              if (1 <=? num_seconds since_last_reset)
                 && (as_secs len <=? num_seconds since_last_reset)
              then Some (set_last_reset c (Some now3))
              else Some c
          | Minute =>
              if (1 <=? num_seconds since_last_reset) && (second off now2 =? 0)
              then Some (set_last_reset c (Some now3))
              else Some c
          | Hour =>
              if (1 <=? num_minutes since_last_reset) && (minute off now2 =? 0)
              then Some (set_last_reset c (Some now3))
              else Some c
          | Day =>
              if (1 <=? num_hours since_last_reset) && (hour off now2 =? 0)
              then Some (set_last_reset c (Some now3))
              else Some c
          end
      end
  end.

(** [Clock::setup_last_reset] at the reading [now] of [Local::now()]; [None] =
    panic of an [expect]. *)
Definition setup_last_reset (c : Clock) (now : Time) : option Clock :=
  match timebar_len c with
  | None => Some c
  | Some len =>
      match len with
      | Custom _ | Countup _ => Some (set_last_reset c (Some now))
      | Minute =>
          match with_second0 off now with
          | Some t => Some (set_last_reset c (Some t))
          | None => None
          end
      | Hour =>
          match with_minute0 off now with
          | Some t => Some (set_last_reset c (Some t))
          | None => None
          end
      | Day =>
          match with_hour0 off now with
          | Some t => Some (set_last_reset c (Some t))
          | None => None
          end
      end
  end.

(** [Clock::setup] *)
Definition setup (c : Clock) (now : Time) : option Clock := setup_last_reset c now.

End ClockOps.

(** ** The notification latch: the state effect of [timebarw] (src/clock/ui.rs) *)

Open Scope float_scope.

(** One call of [timebarw] with [data.timebar_ratio()] equal to [ratio]: the new
    clock and whether [clock.notify()] was called (its error is logged and
    dropped).  [None] = panic of [data.timebar_ratio().unwrap()]. *)
Definition timebarw (c : Clock) (ratio : option float) : option (Clock * bool) :=
  match timebar_len c with
  | None => Some (c, false)
  | Some _ =>
      match ratio with
      | None => None
      | Some r =>
          (* [0.000_001] parses to the nearest f64, 0x1.0c6f7a0b5ed8dp-20 *)
          if negb (did_notify c) && (abs (r - 1) <? 0x1.0c6f7a0b5ed8dp-20) then
            match timebar_len c with
            | Some (Countup _) => Some (set_did_notify c true, true)
            | _ => Some (c, false)
            end
          else Some (c, false)
      end
  end.

Close Scope float_scope.

(** ** UiData (src/clock/uidata.rs): the two-slot buffer *)

(** A Rust array [[T; 2]] indexed by a [usize]; an index out of bounds panics. *)
Definition arr_get {A} (a : A * A) (i : nat) : option A :=
  match i with
  | O => Some (fst a)
  | S O => Some (snd a)
  | _ => None
  end.

Definition arr_set {A} (a : A * A) (i : nat) (v : A) : option (A * A) :=
  match i with
  | O => Some (v, snd a)
  | S O => Some (fst a, v)
  | _ => None
  end.

Record UiData := mkUiData {
  fdate : string * string;
  ftime : string * string;
  ratio_slots : option float * option float;
  data_idx : nat;
}.

(** [#[derive(Default)]] *)
Definition uidata_default : UiData :=
  mkUiData (EmptyString, EmptyString) (EmptyString, EmptyString) (None, None) 0.

(** [UiData::update] *)
Definition update (s : UiData) (d t : string) (r : option float) : option UiData :=
  let idx := Nat.lxor (data_idx s) 1 in
  match arr_set (fdate s) idx d, arr_set (ftime s) idx t, arr_set (ratio_slots s) idx r with
  | Some fd, Some ft, Some rs => Some (mkUiData fd ft rs idx)
  | _, _, _ => None
  end.

(** [UiData::changed]: the ratio slots are not compared. *)
Definition changed (s : UiData) : bool :=
  negb (String.eqb (fst (fdate s)) (snd (fdate s)))
  || negb (String.eqb (fst (ftime s)) (snd (ftime s))).

(** The accessors [fdate()], [ftime()] and [timebar_ratio()]. *)
Definition get_fdate (s : UiData) : option string := arr_get (fdate s) (data_idx s).
Definition get_ftime (s : UiData) : option string := arr_get (ftime s) (data_idx s).
Definition get_timebar_ratio (s : UiData) : option (option float) :=
  arr_get (ratio_slots s) (data_idx s).

(** [n] successive [update]s from a state (the state the main loop holds). *)
Fixpoint update_all (s : UiData) (l : list (string * string * option float)) : option UiData :=
  match l with
  | [] => Some s
  | (d, t, r) :: l' =>
      match update s d t r with
      | Some s' => update_all s' l'
      | None => None
      end
  end.

(** The slot that is not the current one. *)
Definition other_idx (i : nat) : nat := Nat.lxor i 1.

(** ** Facts about the model *)

Lemma lxor1_ge2 (n : nat) : (2 <= n -> 2 <= Nat.lxor n 1)%nat.
Proof.
  intros H.
  assert (E : Nat.div2 (Nat.lxor n 1) = Nat.div2 n).
  { rewrite !Nat.div2_spec, Nat.shiftr_lxor. simpl. apply Nat.lxor_0_r. }
  pose proof (Nat.div2_odd n) as Hn. pose proof (Nat.div2_odd (Nat.lxor n 1)) as Hx.
  destruct (Nat.odd n), (Nat.odd (Nat.lxor n 1)); simpl in *; lia.
Qed.

Lemma update_none (s : UiData) d t r :
  (2 <= data_idx s)%nat -> update s d t r = None.
Proof.
  intros H. pose proof (lxor1_ge2 _ H) as H2. unfold update.
  destruct (Nat.lxor (data_idx s) 1) as [|[|k]]; [lia|lia|reflexivity].
Qed.

Lemma update_some (s : UiData) d t r :
  (data_idx s = 0 \/ data_idx s = 1)%nat ->
  exists s', update s d t r = Some s' /\ data_idx s' = Nat.lxor (data_idx s) 1.
Proof.
  destruct s as [[f0 f1] [t0 t1] [r0 r1] [|[|i]]]; simpl; intros H;
    [eexists; split; reflexivity .. | lia].
Qed.

Lemma update_idx (s s' : UiData) d t r :
  update s d t r = Some s' ->
  (data_idx s = 0 /\ data_idx s' = 1 \/ data_idx s = 1 /\ data_idx s' = 0)%nat.
Proof.
  destruct s as [[f0 f1] [t0 t1] [r0 r1] [|[|i]]]; simpl; intros H;
    [injection H as <-; simpl; auto ..|].
  rewrite update_none in H by (simpl; lia). discriminate.
Qed.

Lemma update_all_idx (l : list (string * string * option float)) (s : UiData) :
  update_all uidata_default l = Some s -> (data_idx s = 0 \/ data_idx s = 1)%nat.
Proof.
  assert (G : forall l s0 s, (data_idx s0 = 0 \/ data_idx s0 = 1)%nat ->
            update_all s0 l = Some s -> (data_idx s = 0 \/ data_idx s = 1)%nat).
  { induction l0 as [|[[d t] r] l' IH]; simpl; intros s0 s1 H0 H.
    - injection H as <-; auto.
    - destruct (update s0 d t r) as [s'|] eqn:E; [|discriminate].
      apply (IH s'); [|exact H].
      destruct (update_idx _ _ _ _ _ E) as [[_ ->]|[_ ->]]; auto. }
  intros H; apply (G l uidata_default); [left; reflexivity | exact H].
Qed.

(** C5: [changed()] compares the two date slots and the two time slots and
    nothing else: it is [true] exactly when the date strings or the time strings
    of the two slots differ; replacing the ratio slots never changes it; and after
    two consecutive updates with [(d, t, r1)] then [(d', t', r2)] it is [true]
    exactly when [d <> d'] or [t <> t'], whatever the ratios. *)
Theorem changed_compares_strings_only :
  forall (s s1 s2 : UiData) (rs : option float * option float)
         (d t d' t' : string) (r1 r2 : option float),
  (changed s = true <-> fst (fdate s) <> snd (fdate s) \/ fst (ftime s) <> snd (ftime s)) /\
  changed (mkUiData (fdate s) (ftime s) rs (data_idx s)) = changed s /\
  (update s d t r1 = Some s1 -> update s1 d' t' r2 = Some s2 ->
   (changed s2 = true <-> d <> d' \/ t <> t') /\
   (d = d' -> t = t' -> changed s2 = false)).
Proof.
  intros s s1 s2 rs d t d' t' r1 r2.
  assert (Hc : forall u, changed u = true <->
            fst (fdate u) <> snd (fdate u) \/ fst (ftime u) <> snd (ftime u)).
  { intros [[a b] [x y] rr i]; unfold changed; simpl.
    rewrite orb_true_iff, !negb_true_iff, !String.eqb_neq; tauto. }
  split; [apply Hc|]. split; [reflexivity|].
  intros H1 H2.
  assert (Hs2 : changed s2 = true <-> d <> d' \/ t <> t').
  { rewrite Hc.
    destruct s as [[f0 f1] [t0 t1] [q0 q1] [|[|i]]]; simpl in H1;
      [| |rewrite update_none in H1 by (simpl; lia); discriminate];
      injection H1 as <-; simpl in H2; injection H2 as <-; simpl;
      split; intros [H|H]; auto. }
  split; [exact Hs2|].
  intros -> ->. case_eq (changed s2); intros E; [|reflexivity].
  apply Hs2 in E; destruct E as [E|E]; congruence.
Qed.

(** C10: from any state the main loop can hold (the default value after any
    number of updates), [update(d, t, r)] succeeds, the accessors then return
    exactly [d], [t] and [r], the index stays in [{0, 1}] and is toggled, and the
    other slot holds what the accessors returned before the update. *)
Theorem update_then_accessors :
  forall (l : list (string * string * option float)) (s : UiData)
         (d t : string) (r : option float),
  update_all uidata_default l = Some s ->
  exists s', update s d t r = Some s' /\
    get_fdate s' = Some d /\ get_ftime s' = Some t /\ get_timebar_ratio s' = Some r /\
    (data_idx s' = 0 \/ data_idx s' = 1)%nat /\
    data_idx s' = other_idx (data_idx s) /\
    arr_get (fdate s') (other_idx (data_idx s')) = get_fdate s /\
    arr_get (ftime s') (other_idx (data_idx s')) = get_ftime s /\
    arr_get (ratio_slots s') (other_idx (data_idx s')) = get_timebar_ratio s.
Proof.
  intros l s d t r H.
  pose proof (update_all_idx l s H) as Hi.
  destruct s as [[f0 f1] [t0 t1] [r0 r1] [|[|i]]]; simpl in Hi;
    [| |lia]; eexists; (split; [reflexivity|]); simpl;
    repeat split; auto.
Qed.

Lemma update_then_accessors_witness :
  exists s', update uidata_default "2024-01-01"%string "12:00:00"%string (Some 0.5%float) = Some s' /\
    get_fdate s' = Some "2024-01-01"%string /\ get_ftime s' = Some "12:00:00"%string /\
    get_timebar_ratio s' = Some (Some 0.5%float) /\
    (data_idx s' = 0 \/ data_idx s' = 1)%nat /\
    data_idx s' = other_idx (data_idx uidata_default) /\
    arr_get (fdate s') (other_idx (data_idx s')) = get_fdate uidata_default /\
    arr_get (ftime s') (other_idx (data_idx s')) = get_ftime uidata_default /\
    arr_get (ratio_slots s') (other_idx (data_idx s')) = get_timebar_ratio uidata_default.
Proof.
  apply (update_then_accessors []). reflexivity.
Defined.

Lemma changed_compares_strings_only_witness :
  exists s1 s2,
  update uidata_default "d"%string "t"%string (Some 0.25%float) = Some s1 /\
  update s1 "d"%string "t"%string (Some 0.5%float) = Some s2 /\
  changed s2 = false.
Proof.
  exists (mkUiData (EmptyString, "d"%string) (EmptyString, "t"%string) (None, Some 0.25%float) 1).
  exists (mkUiData ("d", "d")%string ("t", "t")%string (Some 0.5%float, Some 0.25%float) 0).
  split; [reflexivity|]. split; [reflexivity|].
  destruct (changed_compares_strings_only uidata_default
    (mkUiData (EmptyString, "d"%string) (EmptyString, "t"%string) (None, Some 0.25%float) 1)
    (mkUiData ("d", "d")%string ("t", "t")%string (Some 0.5%float, Some 0.25%float) 0)
    (None, None) "d" "t" "d" "t" (Some 0.25%float) (Some 0.5%float)) as [_ [_ H]].
  apply (proj2 (H eq_refl eq_refl)); reflexivity.
Defined.

(** C7: with none of [--minute], [--day], [--hour], [--custom], [--countdown]
    set, [timebar_len()] is [None], [timebar_ratio(t)] is [None] at every time,
    and the time-bar widget is not built ([timebarw] returns without effect). *)
Theorem no_duration_flag_no_timebar :
  forall c : Clock,
  minute_flag c = false -> day_flag c = false -> hour_flag c = false ->
  custom c = None -> countdown c = None ->
  timebar_len c = None /\ (forall t, timebar_ratio c t = None) /\
  (forall r, timebarw c r = Some (c, false)).
Proof.
  intros c Hm Hd Hh Hc Hu.
  assert (L : timebar_len c = None).
  { unfold timebar_len; rewrite Hm, Hd, Hh, Hu, Hc; reflexivity. }
  split; [exact L|]. split.
  - intros t; unfold timebar_ratio; rewrite L; reflexivity.
  - intros r; unfold timebarw; rewrite L; reflexivity.
Qed.

Lemma no_duration_flag_no_timebar_witness :
  timebar_len (clock_of_args true false false false None None) = None /\
  (forall t, timebar_ratio (clock_of_args true false false false None None) t = None) /\
  (forall r, timebarw (clock_of_args true false false false None None) r =
             Some (clock_of_args true false false false None None, false)).
Proof.
  apply no_duration_flag_no_timebar; reflexivity.
Defined.

(** 13:17:25.4 UTC on 2024-10-19. *)
Definition t_13_17_25_4 : Time := seconds 1729343845 + 400000000.

(** C9, as the code has it: [last_reset] is [None] before setup; a [setup]
    that completes (its [with_*(0)] calls can fail on a local time that is
    skipped or repeated, and then it panics) leaves it [Some] exactly when a
    duration kind is selected (with no kind it stays [None]);
    [maybe_reset_since_zero] keeps a [Some] anchor [Some]; the rendering path
    ([timebarw]) never writes it. *)
Theorem last_reset_set_by_setup_iff_kind :
  forall (off : Z) (tm mi dy hr : bool) (cu co : option Duration) (now : Time),
  last_reset (clock_of_args tm mi dy hr cu co) = None /\
  (forall c1, setup off (clock_of_args tm mi dy hr cu co) now = Some c1 ->
     (last_reset c1 <> None <-> timebar_len (clock_of_args tm mi dy hr cu co) <> None)) /\
  (forall c c' n1 n2 n3, maybe_reset_since_zero off c n1 n2 n3 = Some c' ->
     last_reset c <> None -> last_reset c' <> None) /\
  (forall c r c' b, timebarw c r = Some (c', b) -> last_reset c' = last_reset c).
Proof.
  intros off tm mi dy hr cu co now.
  split; [reflexivity|]. split; [|split].
  - intros c1 H. unfold setup, setup_last_reset, with_second0, with_minute0, with_hour0 in H.
    destruct (timebar_len (clock_of_args tm mi dy hr cu co)) as [[| | | |]|];
      injection H as <-; simpl; split; congruence.
  - intros c c' n1 n2 n3 H Hs. unfold maybe_reset_since_zero in H.
    destruct (timebar_len c) as [len|]; [|injection H as <-; exact Hs].
    destruct (last_reset c) as [lr|] eqn:E; [|discriminate].
    destruct len;
      repeat match goal with
             | H : (if ?b then _ else _) = _ |- _ => destruct b
             end;
      injection H as <-; simpl; congruence.
  - intros c r c' b H. unfold timebarw in H.
    destruct (timebar_len c) as [len|] eqn:L; [|injection H as <- _; reflexivity].
    destruct r as [r|]; [|discriminate].
    destruct (negb (did_notify c) && _)%float; [|injection H as <- _; reflexivity].
    destruct len; injection H as <- _; reflexivity.
Qed.

Lemma last_reset_set_by_setup_iff_kind_witness :
  exists c1, setup 0 (clock_of_args false true false false None None) t_13_17_25_4 = Some c1 /\
    last_reset c1 <> None.
Proof.
  eexists. split; [reflexivity|].
  destruct (last_reset_set_by_setup_iff_kind 0 false true false false None None t_13_17_25_4)
    as [_ [H _]].
  apply (H _ eq_refl). intro E. vm_compute in E. discriminate E.
Defined.

(** C9 fails as stated: with no duration flag, [setup] leaves [last_reset]
    at [None]. *)
Lemma last_reset_none_after_setup_without_kind :
  setup 0 (clock_of_args false false false false None None) 0 =
    Some (clock_of_args false false false false None None) /\
  last_reset (clock_of_args false false false false None None) = None.
Proof.
  split; reflexivity.
Qed.

(** 14:37:25 local time on the first day of the epoch (UTC offset 0). *)
Definition t_14_37_25 : Time := seconds (14 * 3600 + 37 * 60 + 25).

(** C8: [setup] for [--hour] at 14:37:25 anchors at 14:00:25 (only the minute
    field is zeroed, the seconds stay), and for [--day] anchors at 00:37:25 (only
    the hour field is zeroed). *)
Theorem setup_hour_day_keep_lower_fields :
  setup 0 (clock_of_args false false false true None None) t_14_37_25 =
    Some (set_last_reset (clock_of_args false false false true None None)
            (Some (seconds (14 * 3600 + 25)))) /\
  minute 0 (seconds (14 * 3600 + 25)) = 0 /\ second 0 (seconds (14 * 3600 + 25)) = 25 /\
  setup 0 (clock_of_args false false true false None None) t_14_37_25 =
    Some (set_last_reset (clock_of_args false false true false None None)
            (Some (seconds (37 * 60 + 25)))) /\
  hour 0 (seconds (37 * 60 + 25)) = 0 /\ minute 0 (seconds (37 * 60 + 25)) = 37 /\
  second 0 (seconds (37 * 60 + 25)) = 25.
Proof.
  repeat split; vm_compute; reflexivity.
Qed.

(** Repeated calls of [timebarw] (one per rendered frame) with the ratios [rs];
    the final clock and the number of [notify()] calls. *)
Fixpoint poll_run (c : Clock) (rs : list (option float)) : option (Clock * nat) :=
  match rs with
  | [] => Some (c, 0%nat)
  | r :: rs' =>
      match timebarw c r with
      | None => None
      | Some (c1, b) =>
          match poll_run c1 rs' with
          | None => None
          | Some (c2, k) => Some (c2, ((if b then 1 else 0) + k)%nat)
          end
      end
  end.

Definition near_one (r : float) : bool :=
  (abs (r - 1) <? 0x1.0c6f7a0b5ed8dp-20)%float.

Lemma timebarw_step (c : Clock) (r : option float) (c' : Clock) (b : bool) :
  timebarw c r = Some (c', b) ->
  timebar_len c' = timebar_len c /\ did_notify c' = did_notify c || b /\
  (b = true <-> (exists n, timebar_len c = Some (Countup n)) /\ did_notify c = false /\
                exists x, r = Some x /\ near_one x = true).
Proof.
  intros H. unfold timebarw in H.
  destruct (timebar_len c) as [len|] eqn:L.
  2:{ injection H as <- <-. rewrite L. rewrite orb_false_r.
      split; [reflexivity|]. split; [reflexivity|].
      split; [discriminate|]. intros [[n Hn] _]; discriminate. }
  destruct r as [x|]; [|discriminate].
  unfold near_one.
  destruct (did_notify c) eqn:D; simpl in H.
  - injection H as <- <-. rewrite L, D. repeat split; try reflexivity; try discriminate.
    intros [_ [Hf _]]; discriminate.
  - destruct (abs (x - 1) <? 0x1.0c6f7a0b5ed8dp-20)%float eqn:N.
    + destruct len; injection H as <- <-; simpl; rewrite ?L, ?D;
        (repeat split; try reflexivity; try discriminate);
        try (intros [[n Hn] _]; discriminate);
        eauto.
    + injection H as <- <-. rewrite L, D. repeat split; try reflexivity; try discriminate.
      intros [_ [_ [y [Hy Hn]]]]. injection Hy as <-. congruence.
Qed.

Lemma poll_run_props (c : Clock) (rs : list (option float)) (c' : Clock) (k : nat) :
  poll_run c rs = Some (c', k) ->
  (k <= 1)%nat /\ did_notify c' = did_notify c || Nat.eqb k 1 /\
  (did_notify c = true -> k = 0%nat) /\
  ((forall n, timebar_len c <> Some (Countup n)) -> k = 0%nat) /\
  (did_notify c = false -> (exists n, timebar_len c = Some (Countup n)) ->
     (k = 1%nat <-> exists x, In (Some x) rs /\ near_one x = true)).
Proof.
  revert c c' k. induction rs as [|r rs' IH]; intros c c' k H; simpl in H.
  - injection H as <- <-. rewrite orb_false_r. repeat split; auto; try discriminate.
    intros [x [[] _]].
  - destruct (timebarw c r) as [[c1 b]|] eqn:S; [|discriminate].
    destruct (poll_run c1 rs') as [[c2 k']|] eqn:R; [|discriminate].
    injection H as <- <-.
    destruct (timebarw_step _ _ _ _ S) as [Hl [Hd Hb]].
    destruct (IH _ _ _ R) as [K1 [Kd [Kt [Kn Ke]]]].
    destruct b.
    + destruct (proj1 Hb eq_refl) as [[n Hn] [Hf _]].
      assert (k' = 0%nat) by (apply Kt; rewrite Hd, orb_true_r; reflexivity). subst k'.
      rewrite Kd, Hd, Hf. simpl.
      repeat split; auto; try discriminate.
      * intros Hn'. exfalso. exact (Hn' n Hn).
      * intros _. destruct (proj1 Hb eq_refl) as [_ [_ [x [-> Hx]]]].
        exists x. split; [left; reflexivity | exact Hx].
    + rewrite orb_false_r in Hd. simpl.
      split; [exact K1|].
      split; [rewrite Kd, Hd; reflexivity|].
      split; [intros D; apply Kt; rewrite Hd; exact D|].
      split; [intros Hn; apply Kn; rewrite Hl; exact Hn|].
      intros D Hc. rewrite <- Hd in D. rewrite <- Hl in Hc.
      rewrite (Ke D Hc). split.
      * intros [x [Hi Hx]]. exists x. split; [right|]; assumption.
      * intros [x [[Hi|Hi] Hx]].
        -- exfalso. assert (B : false = true).
           { apply Hb. split; [rewrite <- Hl; exact Hc|].
             split; [rewrite <- Hd; exact D|]. exists x. split; [exact Hi | exact Hx]. }
           discriminate.
        -- exists x. auto.
Qed.

(** C6: one call of [timebarw] calls [notify()] exactly when the kind is
    [Countup], [did_notify] is [false] and [|ratio - 1.0| < 1e-6], and then sets
    [did_notify]; over any sequence of frames [did_notify] only goes from [false]
    to [true], [notify()] is called at most once, never for a kind other than
    [Countup], and, starting from [did_notify = false] with kind [Countup], exactly
    once if and only if some frame has a ratio within [1e-6] of [1.0]. *)
Theorem notification_latch_once :
  (forall c r c' b, timebarw c r = Some (c', b) ->
     (b = true <-> (exists n, timebar_len c = Some (Countup n)) /\ did_notify c = false /\
                   exists x, r = Some x /\ near_one x = true) /\
     did_notify c' = did_notify c || b) /\
  (forall c rs c' k, poll_run c rs = Some (c', k) ->
     (k <= 1)%nat /\ did_notify c' = did_notify c || Nat.eqb k 1 /\
     (did_notify c = true -> k = 0%nat) /\
     ((forall n, timebar_len c <> Some (Countup n)) -> k = 0%nat) /\
     (did_notify c = false -> (exists n, timebar_len c = Some (Countup n)) ->
        (k = 1%nat <-> exists x, In (Some x) rs /\ near_one x = true))).
Proof.
  split.
  - intros c r c' b H. destruct (timebarw_step _ _ _ _ H) as [_ [Hd Hb]]. auto.
  - exact poll_run_props.
Qed.

(** A countdown clock polled three times at ratio [1.0] notifies once. *)
Lemma notification_latch_once_witness :
  poll_run (mkClock false false false false None (Some 60000000000%N) (Some 0) false)
    [Some 1%float; Some 1%float; Some 1%float] =
    Some (mkClock false false false false None (Some 60000000000%N) (Some 0) true, 1%nat) /\
  (1 <= 1)%nat.
Proof.
  split; [reflexivity|].
  destruct notification_latch_once as [_ H].
  exact (proj1 (H _ _ _ _ (eq_refl : poll_run
    (mkClock false false false false None (Some 60000000000%N) (Some 0) false)
    [Some 1%float; Some 1%float; Some 1%float] =
    Some (mkClock false false false false None (Some 60000000000%N) (Some 0) true, 1%nat)))).
Defined.

(** Successive calls of [maybe_reset_since_zero] (one per tick), each with its
    three clock readings; for each call, its second reading (the one the
    wall-clock field is taken from) and whether it moved [last_reset]. *)
Fixpoint reset_run (off : Z) (c : Clock) (rs : list (Time * Time * Time))
    : option (list (Time * bool)) :=
  match rs with
  | [] => Some []
  | (n1, n2, n3) :: rs' =>
      match maybe_reset_since_zero off c n1 n2 n3 with
      | None => None
      | Some c' =>
          let fired :=
            match last_reset c, last_reset c' with
            | Some a, Some b => negb (Z.eqb a b)
            | _, _ => false
            end in
          match reset_run off c' rs' with
          | None => None
          | Some tr => Some ((n2, fired) :: tr)
          end
      end
  end.

(** The readings of a run go forward: within a call [now1 <= now2 <= now3], and
    a call's last reading is not after the next call's first one. *)
Fixpoint readings_forward (rs : list (Time * Time * Time)) : Prop :=
  match rs with
  | [] => True
  | (n1, n2, n3) :: rs' =>
      n1 <= n2 <= n3 /\
      match rs' with
      | (m1, _, _) :: _ => n3 <= m1
      | [] => True
      end /\ readings_forward rs'
  end.

(** The zero-second window a reading falls in: its whole second. *)
Definition window_of (t : Time) : Z := Z.div t NANOS_PER_SEC.

Definition fired_in (w : Z) (e : Time * bool) : bool :=
  snd e && Z.eqb (window_of (fst e)) w.

Lemma num_seconds_ge1 (d : Z) : 1 <= num_seconds d <-> NANOS_PER_SEC <= d.
Proof.
  unfold num_seconds, NANOS_PER_SEC. split; intros H.
  - destruct (Z.le_gt_cases 0 d).
    + rewrite Z.quot_div_nonneg in H by lia.
      pose proof (Z.mul_div_le d 1000000000). lia.
    + assert (Z.quot d 1000000000 <= 0).
      { rewrite <- (Z.opp_involutive d), Z.quot_opp_l by lia.
        rewrite Z.quot_div_nonneg by lia. pose proof (Z.div_pos (- d) 1000000000). lia. }
      lia.
  - rewrite Z.quot_div_nonneg by lia. apply Z.div_le_lower_bound; lia.
Qed.

(** One call for [--minute]: either [last_reset] is untouched, or the reading
    [now2] is at second 0, at least one whole second has passed since the anchor
    at [now1], and the new anchor is [now3]. *)
Lemma minute_reset_step (off : Z) (c c' : Clock) (lr n1 n2 n3 : Time) :
  timebar_len c = Some Minute -> last_reset c = Some lr ->
  maybe_reset_since_zero off c n1 n2 n3 = Some c' ->
  c' = c \/
  (c' = set_last_reset c (Some n3) /\ second off n2 = 0 /\
   1 <= num_seconds (signed_duration_since n1 lr)).
Proof.
  intros L E H. unfold maybe_reset_since_zero in H. rewrite L, E in H.
  destruct (1 <=? num_seconds (signed_duration_since n1 lr)) eqn:A;
    destruct (second off n2 =? 0) eqn:B; simpl in H; injection H as <-; auto.
  right. rewrite Z.leb_le in A. rewrite Z.eqb_eq in B. auto.
Qed.

Lemma timebar_len_set_last_reset (c : Clock) (t : option Time) :
  timebar_len (set_last_reset c t) = timebar_len c.
Proof. reflexivity. Qed.

Lemma minute_run_fired_after (off : Z) (rs : list (Time * Time * Time)) :
  forall (c : Clock) (lr : Time) (tr : list (Time * bool)),
  timebar_len c = Some Minute -> last_reset c = Some lr ->
  readings_forward rs -> reset_run off c rs = Some tr ->
  forall t2, In (t2, true) tr -> lr + NANOS_PER_SEC <= t2.
Proof.
  induction rs as [|[[n1 n2] n3] rs' IH]; intros c lr tr L E F H t2 Hin; simpl in H.
  - injection H as <-. destruct Hin.
  - destruct F as [[F12 F23] [Fn F']].
    destruct (maybe_reset_since_zero off c n1 n2 n3) as [c'|] eqn:S; [|discriminate].
    destruct (reset_run off c' rs') as [tr'|] eqn:R; [|discriminate].
    injection H as <-.
    destruct (minute_reset_step off c c' lr n1 n2 n3 L E S) as [->|[-> [Hs Hn]]].
    + rewrite E, Z.eqb_refl in Hin. simpl in Hin. destruct Hin as [Hin|Hin];
        [discriminate|].
      exact (IH c lr tr' L E F' R t2 Hin).
    + apply num_seconds_ge1 in Hn. unfold signed_duration_since in Hn.
      simpl in Hin. rewrite E in Hin. destruct Hin as [Hin|Hin].
      * injection Hin as <- _. lia.
      * pose proof (IH (set_last_reset c (Some n3)) n3 tr'
          (eq_trans (timebar_len_set_last_reset _ _) L) eq_refl F' R t2 Hin).
        unfold NANOS_PER_SEC in *. lia.
Qed.

Lemma filter_nil_of_false {A} (f : A -> bool) (l : list A) :
  (forall e, In e l -> f e = false) -> filter f l = [].
Proof.
  induction l as [|a l IH]; intros H; simpl; [reflexivity|].
  rewrite (H a (or_introl eq_refl)). apply IH. intros e He. apply H. right. exact He.
Qed.

(** C4: for [--minute], a call of [maybe_reset_since_zero] moves [last_reset]
    only when its wall-clock reading is at second 0 and at least one whole
    second has passed since the anchor; and over any run of calls whose clock
    readings go forward (however often they come, e.g. at 10 Hz), at most one
    call whose wall-clock reading falls in a given whole second moves
    [last_reset] -- so at most one reset per zero-second window, i.e. per minute
    boundary. *)
Theorem minute_reset_once_per_window :
  forall (off : Z) (c : Clock) (lr : Time) (rs : list (Time * Time * Time))
         (tr : list (Time * bool)),
  timebar_len c = Some Minute -> last_reset c = Some lr ->
  readings_forward rs -> reset_run off c rs = Some tr ->
  (forall c1 c2 lr1 n1 n2 n3, timebar_len c1 = Some Minute -> last_reset c1 = Some lr1 ->
     maybe_reset_since_zero off c1 n1 n2 n3 = Some c2 -> last_reset c2 <> last_reset c1 ->
     second off n2 = 0 /\ 1 <= num_seconds (signed_duration_since n1 lr1) /\
     last_reset c2 = Some n3) /\
  (forall t2, In (t2, true) tr -> second off t2 = 0) /\
  (forall w, (List.length (filter (fired_in w) tr) <= 1)%nat).
Proof.
  intros off c lr rs tr L E F H.
  split; [|split].
  - intros c1 c2 lr1 n1 n2 n3 L1 E1 S D.
    destruct (minute_reset_step off c1 c2 lr1 n1 n2 n3 L1 E1 S) as [->|[-> [Hs Hn]]].
    + exfalso. exact (D eq_refl).
    + auto.
  - revert c lr tr L E F H. induction rs as [|[[n1 n2] n3] rs' IH];
      intros c lr tr L E F H t2 Hin; simpl in H.
    + injection H as <-. destruct Hin.
    + destruct F as [_ [_ F']].
      destruct (maybe_reset_since_zero off c n1 n2 n3) as [c'|] eqn:S; [|discriminate].
      destruct (reset_run off c' rs') as [tr'|] eqn:R; [|discriminate].
      injection H as <-.
      destruct (minute_reset_step off c c' lr n1 n2 n3 L E S) as [->|[-> [Hs Hn]]].
      * rewrite E, Z.eqb_refl in Hin. simpl in Hin. destruct Hin as [Hin|Hin];
          [discriminate|]. exact (IH c lr tr' L E F' R t2 Hin).
      * simpl in Hin. rewrite E in Hin. destruct Hin as [Hin|Hin].
        -- injection Hin as <- _. exact Hs.
        -- exact (IH _ n3 tr' (eq_trans (timebar_len_set_last_reset _ _) L) eq_refl F' R t2 Hin).
  - intros w. revert c lr tr L E F H. induction rs as [|[[n1 n2] n3] rs' IH];
      intros c lr tr L E F H; simpl in H.
    + injection H as <-. simpl. lia.
    + destruct F as [[F12 F23] [_ F']].
      destruct (maybe_reset_since_zero off c n1 n2 n3) as [c'|] eqn:S; [|discriminate].
      destruct (reset_run off c' rs') as [tr'|] eqn:R; [|discriminate].
      injection H as <-.
      destruct (minute_reset_step off c c' lr n1 n2 n3 L E S) as [->|[-> [Hs Hn]]].
      * rewrite E, Z.eqb_refl. simpl. exact (IH c lr tr' L E F' R).
      * simpl. rewrite E.
        pose proof (minute_run_fired_after off rs' (set_last_reset c (Some n3)) n3 tr'
          (eq_trans (timebar_len_set_last_reset _ _) L) eq_refl F' R) as After.
        assert (Hne : (lr =? n3) = false).
        { apply Z.eqb_neq. apply num_seconds_ge1 in Hn.
          unfold signed_duration_since, NANOS_PER_SEC in *. lia. }
        rewrite Hne. unfold fired_in at 1. simpl.
        destruct (window_of n2 =? w) eqn:W; simpl.
        -- rewrite filter_nil_of_false; [simpl; lia|].
           intros [t b] Hin. unfold fired_in; simpl.
           destruct b; [|reflexivity]. simpl.
           apply Z.eqb_neq. apply Z.eqb_eq in W. subst w.
           pose proof (After t Hin) as Ht. unfold window_of, NANOS_PER_SEC in *.
           assert (Z.div (n2 + 1 * 1000000000) 1000000000 <= Z.div t 1000000000)
             by (apply Z.div_le_mono; lia).
           rewrite Z.div_add in H by lia. lia.
        -- exact (IH _ n3 tr' (eq_trans (timebar_len_set_last_reset _ _) L) eq_refl F' R).
Qed.

Definition minute_clock : Clock := mkClock false true false false None None (Some 0) false.

(** Three ticks 100 ms apart inside the zero-second window of 00:01:00. *)
Definition ticks_at_boundary : list (Time * Time * Time) :=
  [(60000000000, 60000000000, 60000000000);
   (60100000000, 60100000000, 60100000000);
   (60200000000, 60200000000, 60200000000)].

Definition boundary_trace : list (Time * bool) :=
  [(60000000000, true); (60100000000, false); (60200000000, false)].

Lemma minute_reset_once_per_window_witness :
  reset_run 0 minute_clock ticks_at_boundary = Some boundary_trace /\
  (List.length (filter (fired_in 60) boundary_trace) <= 1)%nat.
Proof.
  split; [vm_compute; reflexivity|].
  destruct (minute_reset_once_per_window 0 minute_clock 0 ticks_at_boundary
    boundary_trace eq_refl eq_refl) as [_ [_ H]].
  - simpl. lia.
  - vm_compute. reflexivity.
  - apply H.
Defined.

(** ** Binary64 arithmetic behind [timebar_ratio]

    The lemmas below work on the [spec_float] image of the primitive floats
    ([Prim2SF]), through the specifications of division and comparison.  The
    integers [as f64] of the source are all below 2^64 in magnitude, so their
    conversions and quotients stay far from the subnormal and overflow ranges. *)

Module Binary64.

Lemma digits2_pos_size (p : positive) : digits2_pos p = Pos.size p.
Proof. induction p; simpl; congruence. Qed.

Lemma Zdigits2_log2 (p : positive) :
  Zpos (digits2_pos p) = Z.log2 (Zpos p) + 1.
Proof.
  rewrite digits2_pos_size.
  destruct p; simpl; try rewrite Pos.add_1_r; lia.
Qed.

Lemma digits_of_bounds (p : positive) (k : Z) :
  2 ^ (k - 1) <= Zpos p < 2 ^ k -> 1 <= k -> Zpos (digits2_pos p) = k.
Proof.
  intros Hb Hk. rewrite Zdigits2_log2.
  rewrite (Z.log2_unique (Zpos p) (k - 1)); [lia|lia|].
  replace (Z.succ (k - 1)) with k by lia. exact Hb.
Qed.

Lemma fexp_normal (z : Z) : -1021 <= z -> fexp prec emax z = z - 53.
Proof. intros. unfold fexp, SpecFloat.emin, prec, emax. lia. Qed.

Lemma shr_1_m (mrs : shr_record) :
  0 <= shr_m mrs -> shr_m (shr_1 mrs) = shr_m mrs / 2.
Proof.
  destruct mrs as [m r s]; simpl. intros Hm.
  destruct m as [|[p|p|]|p]; simpl; try reflexivity; try lia.
  - rewrite <- Z.div2_div. reflexivity.
  - rewrite <- Z.div2_div. reflexivity.
Qed.

Lemma iter_shr_1_m (p : positive) (mrs : shr_record) :
  0 <= shr_m mrs -> shr_m (iter_pos shr_1 p mrs) = shr_m mrs / 2 ^ Zpos p.
Proof.
  revert mrs. induction p as [p IH|p IH|]; intros mrs Hm; cbn [iter_pos].
  - assert (H1 : 0 <= shr_m (shr_1 mrs)) by (rewrite shr_1_m; [apply Z.div_pos|]; lia).
    assert (H2 : 0 <= shr_m (iter_pos shr_1 p (shr_1 mrs)))
      by (rewrite IH; [apply Z.div_pos|]; try lia; apply Z.pow_pos_nonneg; lia).
    rewrite IH, IH, shr_1_m by assumption.
    rewrite !Z.div_div by (try apply Z.pow_pos_nonneg; lia).
    f_equal. replace (Zpos p~1) with (Zpos p * 2 + 1) by lia. rewrite Z.pow_add_r, Z.pow_mul_r by lia.
    rewrite Z.pow_2_r, Z.pow_1_r. ring.
  - assert (H2 : 0 <= shr_m (iter_pos shr_1 p mrs))
      by (rewrite IH; [apply Z.div_pos|]; try lia; apply Z.pow_pos_nonneg; lia).
    rewrite IH, IH by assumption.
    rewrite Z.div_div by (try apply Z.pow_pos_nonneg; lia).
    f_equal. replace (Zpos p~0) with (Zpos p * 2) by lia. rewrite Z.pow_mul_r by lia.
    rewrite Z.pow_2_r. ring.
  - rewrite shr_1_m by assumption. reflexivity.
Qed.

Lemma rne_bounds (m : Z) (l : location) :
  m <= round_nearest_even m l <= m + 1.
Proof. destruct l as [|[| |]]; simpl; try destruct (Z.even m); lia. Qed.

Lemma shr_fexp_eq (m e : Z) (l : location) :
  shr_fexp prec emax m e l
  = shr (shr_record_of_loc m l) e (fexp prec emax (Zdigits2 m + e) - e).
Proof. reflexivity. Qed.

Lemma shr_fexp_53 (R : positive) (e : Z) (l : location) :
  2 ^ 52 <= Zpos R < 2 ^ 53 -> -1074 <= e ->
  shr_fexp prec emax (Zpos R) e l = (shr_record_of_loc (Zpos R) l, e).
Proof.
  intros HR He. rewrite shr_fexp_eq. simpl Zdigits2.
  rewrite (digits_of_bounds R 53) by (simpl; lia).
  rewrite fexp_normal by lia. replace (53 + e - 53 - e) with 0 by lia.
  reflexivity.
Qed.

Lemma shr_m_of_loc (m : Z) (l : location) : shr_m (shr_record_of_loc m l) = m.
Proof. destruct l as [|[| |]]; reflexivity. Qed.

Lemma loc_of_shr_record_of_loc (m : Z) (l : location) :
  loc_of_shr_record (shr_record_of_loc m l) = l.
Proof. destruct l as [|[| |]]; reflexivity. Qed.

(** Rounding a mantissa that already has 53 bits after the first shift:
    the result is normal, its exponent is [e'] or, on a carry, [e' + 1]. *)
Lemma round_aux_normal (sx : bool) (m e : Z) (l : location) mrs' e' :
  shr_fexp prec emax m e l = (mrs', e') ->
  2 ^ 52 <= shr_m mrs' < 2 ^ 53 -> -1074 <= e' <= 970 ->
  exists M E, binary_round_aux prec emax sx m e l = S754_finite sx M E
    /\ 2 ^ 52 <= Zpos M < 2 ^ 53
    /\ (E = e' /\ Zpos M = round_nearest_even (shr_m mrs') (loc_of_shr_record mrs')
        \/ E = e' + 1 /\ round_nearest_even (shr_m mrs') (loc_of_shr_record mrs') = 2 ^ 53).
Proof.
  intros Hs Hm He. unfold binary_round_aux. rewrite Hs.
  pose proof (rne_bounds (shr_m mrs') (loc_of_shr_record mrs')) as Hr.
  remember (round_nearest_even (shr_m mrs') (loc_of_shr_record mrs')) as r eqn:Er.
  destruct (Z.eq_dec r (2 ^ 53)) as [Hc|Hc].
  - rewrite Hc. rewrite shr_fexp_eq.
    change (Zdigits2 (2 ^ 53)) with 54.
    rewrite fexp_normal by lia. replace (54 + e' - 53 - e') with 1 by lia.
    cbn [shr]. change (shr_m (iter_pos shr_1 1 (shr_record_of_loc (2 ^ 53) loc_Exact)))
      with (Zpos (2 ^ 52)).
    replace (Z.leb (e' + 1) (emax - prec)) with true
      by (symmetry; apply Z.leb_le; unfold emax, prec; lia).
    exists (2 ^ 52)%positive, (e' + 1). split; [reflexivity|].
    split; [simpl; lia|]. right. split; [reflexivity|congruence].
  - assert (Hr' : 2 ^ 52 <= r < 2 ^ 53) by lia.
    destruct r as [|R|R]; try (simpl in Hr'; lia).
    rewrite shr_fexp_53 by lia. rewrite shr_m_of_loc.
    replace (Z.leb e' (emax - prec)) with true
      by (symmetry; apply Z.leb_le; unfold emax, prec; lia).
    exists R, e'. split; [reflexivity|]. split; [lia|]. left. split; [reflexivity|congruence].
Qed.

Lemma iter_xO (p q : positive) : Zpos (Pos.iter xO p q) = Zpos p * 2 ^ Zpos q.
Proof.
  induction q as [|q IH] using Pos.peano_ind.
  - simpl. lia.
  - rewrite Pos.iter_succ, Pos2Z.inj_succ, Z.pow_succ_r by lia.
    change (Zpos (Pos.iter xO p q)~0) with (2 * Zpos (Pos.iter xO p q)).
    rewrite IH. ring.
Qed.

Lemma valid_normal (sx : bool) (M : positive) (E : Z) :
  2 ^ 52 <= Zpos M < 2 ^ 53 -> -1074 <= E <= 971 ->
  SpecFloat.valid_binary prec emax (S754_finite sx M E) = true.
Proof.
  intros HM HE. unfold SpecFloat.valid_binary, bounded, canonical_mantissa.
  rewrite (digits_of_bounds M 53) by (simpl; lia).
  rewrite fexp_normal by lia.
  apply andb_true_intro; split; [apply Z.eqb_eq; lia|apply Z.leb_le; unfold emax, prec; lia].
Qed.

(** An integer of at most 53 bits is rounded exactly: mantissa [|z|] shifted
    to 53 bits, exponent [log2 |z| - 52]. *)
Lemma round_exact (sx : bool) (p : positive) :
  Zpos p < 2 ^ 53 ->
  exists M, binary_round prec emax sx p 0 = S754_finite sx M (Z.log2 (Zpos p) - 52)
    /\ Zpos M = Zpos p * 2 ^ (52 - Z.log2 (Zpos p))
    /\ 2 ^ 52 <= Zpos M < 2 ^ 53.
Proof.
  intros Hp.
  pose proof (Z.log2_spec (Zpos p) eq_refl) as [Hl Hh].
  assert (Hlb : Z.log2 (Zpos p) < 53).
  { apply Z.log2_lt_pow2; lia. }
  pose proof (Z.log2_nonneg (Zpos p)) as Hl0.
  unfold binary_round. rewrite Zdigits2_log2, fexp_normal by lia.
  replace (Z.log2 (Zpos p) + 1 + 0 - 53) with (Z.log2 (Zpos p) - 52) by lia.
  unfold shl_align. replace (Z.log2 (Zpos p) - 52 - 0) with (Z.log2 (Zpos p) - 52) by lia.
  assert (Hshl : exists M, (match Z.log2 (Zpos p) - 52 with
                            | Zneg d => (Pos.iter xO p d, Z.log2 (Zpos p) - 52)
                            | _ => (p, 0) end) = (M, Z.log2 (Zpos p) - 52)
                 /\ Zpos M = Zpos p * 2 ^ (52 - Z.log2 (Zpos p))).
  { destruct (Z.log2 (Zpos p) - 52) as [|q|q] eqn:Eq.
    - exists p. split; [reflexivity|]. replace (52 - Z.log2 (Zpos p)) with 0 by lia. lia.
    - lia.
    - exists (Pos.iter xO p q). split; [reflexivity|]. rewrite iter_xO.
      replace (52 - Z.log2 (Zpos p)) with (Zpos q) by lia. reflexivity. }
  destruct Hshl as [M [-> HM]].
  assert (HMb : 2 ^ 52 <= Zpos M < 2 ^ 53).
  { rewrite HM. replace 52 with (Z.log2 (Zpos p) + (52 - Z.log2 (Zpos p))) at 1 by lia.
    replace 53 with (Z.succ (Z.log2 (Zpos p)) + (52 - Z.log2 (Zpos p))) by lia.
    rewrite !Z.pow_add_r by lia. split; apply Z.mul_le_mono_nonneg_r || apply Z.mul_lt_mono_pos_r;
      try apply Z.pow_pos_nonneg; try lia. }
  destruct (round_aux_normal sx (Zpos M) (Z.log2 (Zpos p) - 52) loc_Exact
              (shr_record_of_loc (Zpos M) loc_Exact) (Z.log2 (Zpos p) - 52))
    as [M' [E [Hr [HM' HE]]]].
  - apply shr_fexp_53; lia.
  - rewrite shr_m_of_loc. exact HMb.
  - lia.
  - rewrite Hr. rewrite shr_m_of_loc, loc_of_shr_record_of_loc in HE.
    simpl round_nearest_even in HE.
    destruct HE as [[-> HE]|[_ HE]]; [|lia].
    exists M'. split; [reflexivity|]. split; [lia|exact HM'].
Qed.

(** Integers in [2^53, 2^64) round to a normal float of exponent at least 1. *)
Lemma round_large (p : positive) :
  2 ^ 53 <= Zpos p < 2 ^ 64 ->
  exists M E, binary_round prec emax false p 0 = S754_finite false M E
    /\ 2 ^ 52 <= Zpos M < 2 ^ 53 /\ 1 <= E <= 13.
Proof.
  intros Hp.
  pose proof (Z.log2_spec (Zpos p) eq_refl) as [Hl Hh].
  assert (Hlb : 53 <= Z.log2 (Zpos p) < 64).
  { split; [apply Z.log2_le_pow2|apply Z.log2_lt_pow2]; lia. }
  unfold binary_round. rewrite Zdigits2_log2, fexp_normal by lia.
  unfold shl_align.
  destruct (Z.log2 (Zpos p) + 1 + 0 - 53 - 0) as [|q|q] eqn:Eq; try lia.
  destruct (round_aux_normal false (Zpos p) 0 loc_Exact
              (iter_pos shr_1 q (shr_record_of_loc (Zpos p) loc_Exact)) (Zpos q))
    as [M [E [Hr [HM HE]]]].
  - rewrite shr_fexp_eq. simpl Zdigits2. rewrite Zdigits2_log2, fexp_normal by lia.
    replace (Z.log2 (Zpos p) + 1 + 0 - 53 - 0) with (Zpos q) by lia. reflexivity.
  - rewrite iter_shr_1_m; rewrite shr_m_of_loc; [|lia].
    replace (Zpos q) with (Z.log2 (Zpos p) - 52) by lia.
    split.
    + apply Z.div_le_lower_bound; [apply Z.pow_pos_nonneg; lia|].
      rewrite <- Z.pow_add_r by lia. replace (Z.log2 (Zpos p) - 52 + 52) with (Z.log2 (Zpos p)) by lia. lia.
    + apply Z.div_lt_upper_bound; [apply Z.pow_pos_nonneg; lia|].
      rewrite <- Z.pow_add_r by lia. replace (Z.log2 (Zpos p) - 52 + 53) with (Z.succ (Z.log2 (Zpos p))) by lia. lia.
  - lia.
  - exists M, E. split; [exact Hr|]. split; [exact HM|]. lia.
Qed.

Lemma div_core_normal (mx my : positive) (ex ey : Z) :
  2 ^ 52 <= Zpos mx < 2 ^ 53 -> 2 ^ 52 <= Zpos my < 2 ^ 53 -> -1000 <= ex - ey <= 900 ->
  SFdiv_core_binary prec emax (Zpos mx) ex (Zpos my) ey
  = ((Zpos mx * 2 ^ 53) / Zpos my, ex - ey - 53,
     new_location (Zpos my) ((Zpos mx * 2 ^ 53) mod Zpos my)).
Proof.
  intros Hx Hy He. unfold SFdiv_core_binary. simpl Zdigits2.
  rewrite (digits_of_bounds mx 53), (digits_of_bounds my 53) by (simpl; lia).
  rewrite fexp_normal by lia.
  replace (Z.min (53 + ex - (53 + ey) - 53) (ex - ey)) with (ex - ey - 53) by lia.
  replace (ex - ey - (ex - ey - 53)) with 53 by lia.
  cbn zeta. rewrite Z.shiftl_mul_pow2 by lia.
  unfold Z.div, Z.modulo. destruct (Z.div_eucl (Zpos mx * 2 ^ 53) (Zpos my)). reflexivity.
Qed.

(** The quotient of two normal positive floats, of moderate exponents, is a
    normal positive float; it is at least [1.0] (exponent at least [-52])
    exactly when the dividend is at least the divisor. *)
Lemma div_normal (mx my : positive) (ex ey : Z) :
  2 ^ 52 <= Zpos mx < 2 ^ 53 -> 2 ^ 52 <= Zpos my < 2 ^ 53 -> -1000 <= ex - ey <= 900 ->
  exists M E, SFdiv prec emax (S754_finite false mx ex) (S754_finite false my ey)
              = S754_finite false M E
    /\ 2 ^ 52 <= Zpos M < 2 ^ 53
    /\ (-52 <= E <-> ey < ex \/ ey = ex /\ Zpos my <= Zpos mx).
Proof.
  intros Hx Hy He. unfold SFdiv. rewrite div_core_normal by assumption.
  cbn [xorb].
  set (q := (Zpos mx * 2 ^ 53) / Zpos my).
  set (r := (Zpos mx * 2 ^ 53) mod Zpos my).
  assert (Hqr : Zpos mx * 2 ^ 53 = Zpos my * q + r) by (apply Z.div_mod; lia).
  assert (Hr : 0 <= r < Zpos my) by (apply Z.mod_pos_bound; lia).
  destruct (Z_le_gt_dec (Zpos my) (Zpos mx)) as [Hge|Hlt].
  - (* quotient in [1, 2): 54 bits before rounding *)
    assert (Hq : 2 ^ 53 <= q < 2 ^ 54) by nia.
    destruct q as [|Q|Q] eqn:Eq; try (simpl in Hq; lia).
    destruct (round_aux_normal false (Zpos Q) (ex - ey - 53) (new_location (Zpos my) r)
                (shr_1 (shr_record_of_loc (Zpos Q) (new_location (Zpos my) r)))
                (ex - ey - 52)) as [M [E [HR [HM HE]]]].
    + rewrite shr_fexp_eq. simpl Zdigits2.
      rewrite (digits_of_bounds Q 54) by (simpl; lia).
      rewrite fexp_normal by lia. replace (54 + (ex - ey - 53) - 53 - (ex - ey - 53)) with 1 by lia.
      cbn [shr iter_pos]. f_equal. lia.
    + rewrite shr_1_m, shr_m_of_loc; rewrite ?shr_m_of_loc. all: Z.to_euclidean_division_equations; lia.
    + lia.
    + exists M, E. split; [exact HR|]. split; [exact HM|].
      destruct HE as [[HE _]|[HE Hc]]; [lia|].
      split; [|lia]. intros HE52.
      destruct (Z.eq_dec ex (ey - 1)) as [Hex|Hex]; [|lia]. exfalso.
      pose proof (rne_bounds (shr_m (shr_1 (shr_record_of_loc (Zpos Q) (new_location (Zpos my) r))))
                    (loc_of_shr_record (shr_1 (shr_record_of_loc (Zpos Q) (new_location (Zpos my) r)))))
        as Hb.
      rewrite Hc, shr_1_m, shr_m_of_loc in Hb by (rewrite shr_m_of_loc; lia).
      assert (HQ : 2 ^ 54 - 2 <= Zpos Q) by (Z.to_euclidean_division_equations; lia).
      assert (Hm1 : Zpos my * (2 ^ 54 - 2) <= Zpos my * Zpos Q)
        by (apply Z.mul_le_mono_nonneg_l; lia).
      assert (Hmy : Zpos my = 2 ^ 52) by lia.
      rewrite Hmy in Hqr, Hm1.
      assert (Hmx : Zpos mx = 2 ^ 53 - 1) by lia.
      assert (HQ2 : Zpos Q = 2 ^ 54 - 2) by lia.
      assert (Hr0 : r = 0) by lia.
      rewrite Hr0, Hmy in Hc. injection Hmy as ->. injection HQ2 as ->.
      vm_compute in Hc. discriminate Hc.
  - (* quotient in [1/2, 1): 53 bits, at most 2^53 - 2 *)
    assert (Hq : 2 ^ 52 <= q <= 2 ^ 53 - 2) by nia.
    destruct q as [|Q|Q] eqn:Eq; try (simpl in Hq; lia).
    destruct (round_aux_normal false (Zpos Q) (ex - ey - 53) (new_location (Zpos my) r)
                (shr_record_of_loc (Zpos Q) (new_location (Zpos my) r))
                (ex - ey - 53)) as [M [E [HR [HM HE]]]].
    + apply shr_fexp_53; lia.
    + rewrite shr_m_of_loc. lia.
    + lia.
    + exists M, E. split; [exact HR|]. split; [exact HM|].
      rewrite shr_m_of_loc in HE.
      pose proof (rne_bounds (Zpos Q) (loc_of_shr_record (shr_record_of_loc (Zpos Q) (new_location (Zpos my) r)))).
      destruct HE as [[HE _]|[HE Hc]]; lia.
Qed.

Definition one_sf : spec_float := S754_finite false 4503599627370496 (-52).

Lemma Prim2SF_one : Prim2SF 1%float = one_sf.
Proof. vm_compute. reflexivity. Qed.

Lemma Prim2SF_zero : Prim2SF 0%float = S754_zero false.
Proof. vm_compute. reflexivity. Qed.

Lemma float_eq_Prim2SF (x y : float) : x = y <-> Prim2SF x = Prim2SF y.
Proof.
  split; [intros ->; reflexivity|].
  intros H. rewrite <- (SF2Prim_Prim2SF x), H. apply SF2Prim_Prim2SF.
Qed.

Lemma zero_neq_one : 0%float <> 1%float.
Proof. rewrite float_eq_Prim2SF, Prim2SF_one, Prim2SF_zero. discriminate. Qed.

End Binary64.

Import Binary64.

Lemma clamp01_eq_one (x : float) :
  f64_clamp x 0 1 = 1%float <-> SFleb one_sf (Prim2SF x) = true.
Proof.
  unfold f64_clamp. rewrite !ltb_spec, Prim2SF_zero, Prim2SF_one.
  pose proof (float_eq_Prim2SF x 1) as E1. rewrite Prim2SF_one in E1.
  destruct (Prim2SF x) as [[]|[]| |[] mx ex] eqn:Ex; cbn -[one_sf]; rewrite ?Ex; cbn;
    try (split; [intros H; exfalso; apply zero_neq_one; exact H|discriminate]);
    try (split; [reflexivity|reflexivity]);
    try (rewrite E1; split; [discriminate|discriminate]).
  destruct ex as [|e|e]; cbn; try (split; reflexivity).
  destruct (52 ?= e)%positive eqn:Hc; cbn.
  - destruct (Pos.compare_cont Eq 4503599627370496 mx) eqn:Hm; cbn.
    + change (Pos.compare_cont Eq 4503599627370496 mx) with (Pos.compare 4503599627370496 mx) in Hm.
      apply Pos.compare_eq_iff in Hc, Hm. subst. rewrite E1. split; reflexivity.
    + split; reflexivity.
    + rewrite E1. split; [|discriminate]. intros H. injection H as -> ->.
      rewrite Pos.compare_cont_refl in Hm. discriminate.
  - rewrite E1. split; [|discriminate]. intros H. injection H as -> ->.
    rewrite Pos.compare_refl in Hc. discriminate.
  - split; reflexivity.
Qed.


Lemma leb_one_normal (M : positive) (E : Z) :
  2 ^ 52 <= Zpos M ->
  SFleb one_sf (S754_finite false M E) = true <-> -52 <= E.
Proof.
  intros HM.
  change (SFleb one_sf (S754_finite false M E)) with
    (match Some (match Z.compare (-52) E with
                 | Lt => Lt | Gt => Gt | Eq => Pos.compare_cont Eq 4503599627370496 M end)
     with Some (Lt | Eq) => true | _ => false end).
  assert (HP : (4503599627370496 <= M)%positive) by lia.
  unfold Pos.le in HP.
  change (Pos.compare_cont Eq 4503599627370496 M) with (Pos.compare 4503599627370496 M).
  destruct (Z.compare_spec (-52) E); [|split; [lia|reflexivity]|split; [discriminate|lia]].
  destruct (Pos.compare 4503599627370496 M); [| |congruence]; split; (reflexivity || lia).
Qed.

Lemma Prim2SF_int_zero : Prim2SF (int_as_f64 0) = S754_zero false.
Proof. unfold int_as_f64. apply Prim2SF_SF2Prim. reflexivity. Qed.

Lemma Prim2SF_int_exact (sx : bool) (p : positive) :
  Zpos p < 2 ^ 53 ->
  exists M, Prim2SF (int_as_f64 (if sx then Zneg p else Zpos p))
            = S754_finite sx M (Z.log2 (Zpos p) - 52)
    /\ Zpos M = Zpos p * 2 ^ (52 - Z.log2 (Zpos p))
    /\ 2 ^ 52 <= Zpos M < 2 ^ 53.
Proof.
  intros Hp. destruct (round_exact sx p Hp) as [M [HR [HM HMb]]].
  exists M. split; [|split; assumption].
  assert (Hl : 0 <= Z.log2 (Zpos p) < 53)
    by (split; [apply Z.log2_nonneg|apply Z.log2_lt_pow2; lia]).
  unfold int_as_f64. destruct sx; simpl binary_normalize; rewrite HR;
    apply Prim2SF_SF2Prim, valid_normal; lia.
Qed.

Lemma Prim2SF_int_large (p : positive) :
  2 ^ 53 <= Zpos p < 2 ^ 64 ->
  exists M E, Prim2SF (int_as_f64 (Zpos p)) = S754_finite false M E
    /\ 2 ^ 52 <= Zpos M < 2 ^ 53 /\ 1 <= E <= 13.
Proof.
  intros Hp. destruct (round_large p Hp) as [M [E [HR [HM HE]]]].
  exists M, E. split; [|split; assumption].
  unfold int_as_f64. simpl binary_normalize. rewrite HR.
  apply Prim2SF_SF2Prim, valid_normal; lia.
Qed.

Lemma round_aux_neg_not_ge_one (m e : Z) (l : location) :
  SFleb one_sf (binary_round_aux prec emax true m e l) = false.
Proof.
  unfold binary_round_aux.
  destruct (shr_fexp prec emax m e l) as [mrs' e'].
  destruct (shr_fexp prec emax _ e' loc_Exact) as [mrs'' e''].
  destruct (shr_m mrs''); try destruct (Z.leb e'' (emax - prec)); reflexivity.
Qed.

Lemma exact_order (a b : positive) (Ma Mb : positive) :
  Zpos a < 2 ^ 53 -> Zpos b < 2 ^ 53 ->
  Zpos Ma = Zpos a * 2 ^ (52 - Z.log2 (Zpos a)) ->
  Zpos Mb = Zpos b * 2 ^ (52 - Z.log2 (Zpos b)) ->
  (Z.log2 (Zpos b) - 52 < Z.log2 (Zpos a) - 52
   \/ Z.log2 (Zpos b) - 52 = Z.log2 (Zpos a) - 52 /\ Zpos Mb <= Zpos Ma)
  <-> Zpos b <= Zpos a.
Proof.
  intros Ha Hb HMa HMb.
  pose proof (Z.log2_spec (Zpos a) eq_refl) as [Ha1 Ha2].
  pose proof (Z.log2_spec (Zpos b) eq_refl) as [Hb1 Hb2].
  assert (La : Z.log2 (Zpos a) < 53) by (apply Z.log2_lt_pow2; lia).
  assert (Lb : Z.log2 (Zpos b) < 53) by (apply Z.log2_lt_pow2; lia).
  split.
  - intros [H|[H H']].
    + assert (2 ^ Z.succ (Z.log2 (Zpos b)) <= 2 ^ Z.log2 (Zpos a))
        by (apply Z.pow_le_mono_r; lia). lia.
    + assert (HL : Z.log2 (Zpos a) = Z.log2 (Zpos b)) by lia.
      rewrite HMa, HMb, HL in H'.
      apply Z.mul_le_mono_pos_r in H'; [lia|apply Z.pow_pos_nonneg; lia].
  - intros H. pose proof (Z.log2_le_mono _ _ H) as HL.
    destruct (Z.eq_dec (Z.log2 (Zpos b)) (Z.log2 (Zpos a))) as [He|He]; [right|left; lia].
    split; [lia|]. rewrite HMa, HMb, He.
    apply Z.mul_le_mono_nonneg_r; [apply Z.pow_nonneg|]; lia.
Qed.

(** [(s as f64 / k as f64).clamp(0.0, 1.0) == 1.0] exactly when [s >= max k 1],
    for [|s| < 2^53] and [0 <= k < 2^64]. *)
Lemma clamp_ratio_one (s k : Z) :
  Z.abs s < 2 ^ 53 -> 0 <= k < 2 ^ 64 ->
  f64_clamp (int_as_f64 s / int_as_f64 k)%float 0 1 = 1%float <-> 0 < s /\ k <= s.
Proof.
  intros Hs Hk. rewrite clamp01_eq_one, div_spec. unfold SF64div.
  destruct s as [|p|p].
  - rewrite Prim2SF_int_zero.
    destruct k as [|q|q]; [rewrite Prim2SF_int_zero|destruct (Z_lt_le_dec (Zpos q) (2 ^ 53))|lia].
    + split; [discriminate|lia].
    + destruct (Prim2SF_int_exact false q l) as [My [-> _]]. split; [discriminate|lia].
    + destruct (Prim2SF_int_large q (conj l (proj2 Hk))) as [My [Ey [-> _]]].
      split; [discriminate|lia].
  - destruct (Prim2SF_int_exact false p ltac:(lia)) as [Mx [HX [HMx HMxb]]].
    rewrite HX.
    destruct k as [|q|q]; [rewrite Prim2SF_int_zero|destruct (Z_lt_le_dec (Zpos q) (2 ^ 53))|lia].
    + split; [lia|reflexivity].
    + destruct (Prim2SF_int_exact false q l) as [My [-> [HMy HMyb]]].
      assert (Hl : 0 <= Z.log2 (Zpos p) < 53 /\ 0 <= Z.log2 (Zpos q) < 53)
        by (split; split; try apply Z.log2_nonneg; apply Z.log2_lt_pow2; lia).
      destruct (div_normal Mx My (Z.log2 (Zpos p) - 52) (Z.log2 (Zpos q) - 52))
        as [M [E [-> [HM HE]]]]; [lia|lia|lia|].
      rewrite leb_one_normal by lia. rewrite HE.
      rewrite (exact_order p q Mx My) by lia. lia.
    + destruct (Prim2SF_int_large q (conj l (proj2 Hk))) as [My [Ey [-> [HMy HEy]]]].
      assert (Hl : 0 <= Z.log2 (Zpos p) < 53)
        by (split; [apply Z.log2_nonneg|apply Z.log2_lt_pow2; lia]).
      destruct (div_normal Mx My (Z.log2 (Zpos p) - 52) Ey)
        as [M [E [-> [HM HE]]]]; [lia|lia|lia|].
      rewrite leb_one_normal by lia. rewrite HE. lia.
  - destruct (Prim2SF_int_exact true p ltac:(lia)) as [Mx [HX _]].
    rewrite HX.
    destruct k as [|q|q]; [rewrite Prim2SF_int_zero|destruct (Z_lt_le_dec (Zpos q) (2 ^ 53))|lia].
    + split; [discriminate|lia].
    + destruct (Prim2SF_int_exact false q l) as [My [-> _]].
      unfold SFdiv. destruct (SFdiv_core_binary _ _ _ _ _ _) as [[mz ez] lz].
      rewrite round_aux_neg_not_ge_one. split; [discriminate|lia].
    + destruct (Prim2SF_int_large q (conj l (proj2 Hk))) as [My [Ey [-> _]]].
      unfold SFdiv. destruct (SFdiv_core_binary _ _ _ _ _ _) as [[mz ez] lz].
      rewrite round_aux_neg_not_ge_one. split; [discriminate|lia].
Qed.

(** ** The time bar ratio (claims on [timebar_ratio]) *)

(** chrono's [DateTime] spans about 262000 years on either side of 1970: every
    timestamp is below 2^43 seconds in magnitude. *)
Definition in_chrono_range (t : Time) : Prop := Z.abs t < 2 ^ 43 * NANOS_PER_SEC.

(** A clock started with [--countdown 500ms] (or [0s]): [as_secs] is 0. *)
Definition countup0_clock (lr : Time) : Clock :=
  mkClock false false false false None (Some 0%N) (Some lr) false.

Lemma timebar_ratio_some (c : Clock) (len : TimeBarLength) (lr t : Time) :
  timebar_len c = Some len -> last_reset c = Some lr ->
  timebar_ratio c t
  = Some (Some (f64_clamp (int_as_f64 (num_seconds (t - lr)%Z) / int_as_f64 (as_secs len))%float
                  0%float 1%float)).
Proof. intros H1 H2. unfold timebar_ratio. rewrite H1, H2. reflexivity. Qed.

Lemma num_seconds_small (t lr : Time) :
  in_chrono_range lr -> in_chrono_range t -> Z.abs (num_seconds (t - lr)) < 2 ^ 53.
Proof.
  unfold in_chrono_range, num_seconds, NANOS_PER_SEC. intros H1 H2.
  Z.to_euclidean_division_equations. lia.
Qed.

Lemma num_seconds_mono (d1 d2 : TimeDelta) : d1 <= d2 -> num_seconds d1 <= num_seconds d2.
Proof. unfold num_seconds. intros H. apply Z.quot_le_mono; [unfold NANOS_PER_SEC; lia|exact H]. Qed.

Lemma num_seconds_lower (d : TimeDelta) (k : Z) :
  0 <= k -> seconds k <= d -> k <= num_seconds d.
Proof.
  unfold num_seconds, seconds, NANOS_PER_SEC. intros H0 H.
  Z.to_euclidean_division_equations. nia.
Qed.

(** Claim C1: the ratio of [timebar_ratio] is always within [0.0, 1.0].  With a
    [Custom]/[Countup] length of 0 seconds and a current time less than one
    second after the anchor, the ratio is [0.0 / 0.0 = NaN]; [clamp] returns a
    NaN unchanged, so the ratio is outside [0.0, 1.0]. *)
Theorem timebar_ratio_nan_for_zero_length (lr t : Time) :
  0 <= t - lr < NANOS_PER_SEC ->
  exists x, timebar_ratio (countup0_clock lr) t = Some (Some x)
    /\ Prim2SF x = S754_nan /\ (0 <=? x)%float = false /\ (x <=? 1)%float = false.
Proof.
  intros H. rewrite (timebar_ratio_some _ (Countup 0) lr) by reflexivity.
  unfold num_seconds. rewrite Z.quot_small by exact H.
  eexists. split; [reflexivity|]. vm_compute. split; [reflexivity|split; reflexivity].
Qed.

Lemma timebar_ratio_nan_for_zero_length_witness :
  0 <= 500000000 - 0 < NANOS_PER_SEC
  /\ exists x, timebar_ratio (countup0_clock 0) 500000000 = Some (Some x)
       /\ Prim2SF x = S754_nan.
Proof.
  assert (H : 0 <= 500000000 - 0 < NANOS_PER_SEC) by (unfold NANOS_PER_SEC; lia).
  split; [exact H|].
  destruct (timebar_ratio_nan_for_zero_length 0 500000000 H) as [x [H1 [H2 _]]].
  exists x. split; assumption.
Defined.

(** Claim C2: for the [Minute] length and the anchor [a], the ratio is [0.5]
    at [a + 30s], the binary64 quotient [59 / 60] (between 0.9833 and 0.9834) at
    [a + 59s], [0.0] at [a], and exactly [1.0] at [a + 60s] and at any later
    time. *)
Theorem minute_ratio_points (c : Clock) (a : Time) :
  timebar_len c = Some Minute -> last_reset c = Some a ->
  timebar_ratio c (a + seconds 30) = Some (Some 0.5%float)
  /\ timebar_ratio c (a + seconds 59) = Some (Some (59 / 60)%float)
  /\ (9833 / 10000 <? 59 / 60)%float = true /\ (59 / 60 <? 9834 / 10000)%float = true
  /\ timebar_ratio c (a + seconds 0) = Some (Some 0%float)
  /\ (forall t, in_chrono_range a -> in_chrono_range t -> a + seconds 60 <= t ->
        timebar_ratio c t = Some (Some 1%float)).
Proof.
  intros Hl Hr.
  rewrite !(timebar_ratio_some c Minute a) by assumption.
  replace (a + seconds 30 - a) with (seconds 30) by lia.
  replace (a + seconds 59 - a) with (seconds 59) by lia.
  replace (a + seconds 0 - a) with (seconds 0) by lia.
  split; [vm_compute; reflexivity|].
  split; [vm_compute; reflexivity|].
  split; [vm_compute; reflexivity|].
  split; [vm_compute; reflexivity|].
  split; [vm_compute; reflexivity|].
  intros t Ha Ht Hle. rewrite (timebar_ratio_some c Minute a) by assumption.
  do 2 f_equal. apply clamp_ratio_one.
  - apply num_seconds_small; assumption.
  - simpl. lia.
  - assert (H60 : 60 <= num_seconds (t - a)) by (apply num_seconds_lower; unfold seconds in *; lia).
    simpl. lia.
Qed.

Definition minute_clock_at (a : Time) : Clock :=
  mkClock false true false false None None (Some a) false.

Lemma minute_ratio_points_witness :
  timebar_ratio (minute_clock_at 0) (seconds 3600) = Some (Some 1%float).
Proof.
  destruct (minute_ratio_points (minute_clock_at 0) 0 eq_refl eq_refl)
    as [_ [_ [_ [_ [_ H]]]]].
  apply H; unfold in_chrono_range, seconds, NANOS_PER_SEC; lia.
Defined.

(** Claim C3: for the [Countup] length, [maybe_reset_since_zero] never changes
    [last_reset] (it returns the clock unchanged, or panics on a missing anchor),
    and for a fixed anchor the ratio, once [1.0], stays [1.0] at every later time
    (lengths are [Duration::as_secs] values, below 2^64). *)
Theorem countup_no_reset_ratio_latched :
  (forall off c k now1 now2 now3,
      timebar_len c = Some (Countup k) ->
      maybe_reset_since_zero off c now1 now2 now3 = Some c
      \/ (last_reset c = None /\ maybe_reset_since_zero off c now1 now2 now3 = None))
  /\ (forall c k lr t1 t2,
      timebar_len c = Some (Countup k) -> 0 <= k < 2 ^ 64 -> last_reset c = Some lr ->
      in_chrono_range lr -> in_chrono_range t1 -> in_chrono_range t2 -> t1 <= t2 ->
      timebar_ratio c t1 = Some (Some 1%float) -> timebar_ratio c t2 = Some (Some 1%float)).
Proof.
  split.
  - intros off c k now1 now2 now3 Hl. unfold maybe_reset_since_zero. rewrite Hl.
    destruct (last_reset c); [left; reflexivity|right; split; reflexivity].
  - intros c k lr t1 t2 Hl Hk Hr Hlr Ht1 Ht2 Hle H1.
    rewrite (timebar_ratio_some c (Countup k) lr) in H1 |- * by assumption.
    injection H1 as H1. cbn [as_secs] in H1 |- *.
    apply clamp_ratio_one in H1; [|apply num_seconds_small; assumption|exact Hk].
    do 2 f_equal. apply clamp_ratio_one; [apply num_seconds_small; assumption|exact Hk|].
    pose proof (num_seconds_mono (t1 - lr) (t2 - lr) ltac:(lia)). lia.
Qed.

Definition countup_clock (d : Duration) (lr : Time) : Clock :=
  mkClock false false false false None (Some d) (Some lr) false.

Lemma countup_no_reset_ratio_latched_witness :
  maybe_reset_since_zero 0 (countup_clock 60000000000%N 0) (seconds 61) 0 (seconds 61)
    = Some (countup_clock 60000000000%N 0)
  /\ timebar_ratio (countup_clock 60000000000%N 0) (seconds 100000) = Some (Some 1%float).
Proof.
  destruct countup_no_reset_ratio_latched as [Hm Hr]. split.
  - destruct (Hm 0 (countup_clock 60000000000%N 0) 60 (seconds 61) 0 (seconds 61) eq_refl)
      as [H|[H _]]; [exact H|discriminate H].
  - apply (Hr (countup_clock 60000000000%N 0) 60 0 (seconds 60) (seconds 100000));
      try reflexivity; unfold in_chrono_range, seconds, NANOS_PER_SEC; lia.
Defined.

(** ** Further properties of the time bar *)

Lemma SFcompare_finite_pos_swap (m1 m2 : positive) (e1 e2 : Z) :
  SFcompare (S754_finite false m1 e1) (S754_finite false m2 e2)
  = option_map CompOpp (SFcompare (S754_finite false m2 e2) (S754_finite false m1 e1)).
Proof.
  cbn [SFcompare option_map]. f_equal. rewrite (Z.compare_antisym e2 e1).
  destruct (e2 ?= e1); cbn; try reflexivity.
  pose proof (Pos.compare_antisym m2 m1) as H. unfold Pos.compare in H. exact H.
Qed.

Lemma clamp01_in_range (x : float) :
  Prim2SF x <> S754_nan ->
  (0 <=? f64_clamp x 0 1)%float = true /\ (f64_clamp x 0 1 <=? 1)%float = true.
Proof.
  intros Hn. unfold f64_clamp.
  destruct (x <? 0)%float eqn:H0; [split; reflexivity|].
  destruct (1 <? x)%float eqn:H1; [split; reflexivity|].
  rewrite ltb_spec, Prim2SF_zero in H0. rewrite ltb_spec, Prim2SF_one in H1.
  rewrite !leb_spec, Prim2SF_zero, Prim2SF_one.
  destruct (Prim2SF x) as [[]|[]| |[] mx ex] eqn:Ex; try discriminate; try congruence;
    split; try reflexivity.
  unfold SFltb in H1. unfold SFleb. unfold one_sf in *.
  rewrite SFcompare_finite_pos_swap.
  destruct (SFcompare (S754_finite false 4503599627370496 (-52)) (S754_finite false mx ex))
    as [[| |]|] eqn:Hc; cbn; try reflexivity; try congruence. cbn in Hc. discriminate Hc.
Qed.

Lemma shr_fexp_nonneg (m e : Z) (l : location) :
  0 <= m -> 0 <= shr_m (fst (shr_fexp prec emax m e l)).
Proof.
  intros Hm. rewrite shr_fexp_eq. unfold shr.
  destruct (fexp prec emax (Zdigits2 m + e) - e); cbn [fst]; rewrite ?shr_m_of_loc; try lia.
  rewrite iter_shr_1_m; rewrite shr_m_of_loc; [|lia].
  apply Z.div_pos; [lia|apply Z.pow_pos_nonneg; lia].
Qed.

Lemma round_aux_not_nan (sx : bool) (m e : Z) (l : location) :
  0 <= m -> binary_round_aux prec emax sx m e l <> S754_nan.
Proof.
  intros Hm. unfold binary_round_aux.
  pose proof (shr_fexp_nonneg m e l Hm) as H1.
  destruct (shr_fexp prec emax m e l) as [mrs' e'] eqn:E1. cbn [fst] in H1.
  pose proof (rne_bounds (shr_m mrs') (loc_of_shr_record mrs')) as Hr.
  pose proof (shr_fexp_nonneg (round_nearest_even (shr_m mrs') (loc_of_shr_record mrs'))
                e' loc_Exact ltac:(lia)) as H2.
  destruct (shr_fexp prec emax _ e' loc_Exact) as [mrs'' e''] eqn:E2. cbn [fst] in H2.
  destruct (shr_m mrs''); [discriminate| |lia].
  destruct (Z.leb e'' (emax - prec)); discriminate.
Qed.

Lemma div_core_nonneg (mx my : positive) (ex ey : Z) :
  0 <= fst (fst (SFdiv_core_binary prec emax (Zpos mx) ex (Zpos my) ey)).
Proof.
  unfold SFdiv_core_binary. cbv zeta.
  match goal with |- context [Z.div_eucl ?a ?b] =>
    assert (Ha : 0 <= a); [|pose proof (Z.div_pos a b Ha ltac:(lia)) as Hq;
      unfold Z.div in Hq; destruct (Z.div_eucl a b); exact Hq] end.
  destruct (Z.sub (Z.sub ex ey) _); try lia. apply Z.shiftl_nonneg. lia.
Qed.

(** [s as f64 / k as f64] is never NaN for a length [k >= 1]. *)
Lemma ratio_quotient_not_nan (s k : Z) :
  Z.abs s < 2 ^ 53 -> 1 <= k < 2 ^ 64 ->
  Prim2SF (int_as_f64 s / int_as_f64 k)%float <> S754_nan.
Proof.
  intros Hs Hk. rewrite div_spec. unfold SF64div.
  assert (Hy : exists My Ey, Prim2SF (int_as_f64 k) = S754_finite false My Ey).
  { destruct k as [|q|q]; try lia.
    destruct (Z_lt_le_dec (Zpos q) (2 ^ 53)) as [l|l].
    - destruct (Prim2SF_int_exact false q l) as [My [H _]]. eauto.
    - destruct (Prim2SF_int_large q (conj l (proj2 Hk))) as [My [Ey [H _]]]. eauto. }
  destruct Hy as [My [Ey ->]].
  destruct s as [|p|p].
  - rewrite Prim2SF_int_zero. discriminate.
  - destruct (Prim2SF_int_exact false p ltac:(lia)) as [Mx [-> _]].
    unfold SFdiv. pose proof (div_core_nonneg Mx My (Z.log2 (Zpos p) - 52) Ey) as H.
    destruct (SFdiv_core_binary _ _ _ _ _ _) as [[mz ez] lz].
    apply round_aux_not_nan. exact H.
  - destruct (Prim2SF_int_exact true p ltac:(lia)) as [Mx [-> _]].
    unfold SFdiv. pose proof (div_core_nonneg Mx My (Z.log2 (Zpos p) - 52) Ey) as H.
    destruct (SFdiv_core_binary _ _ _ _ _ _) as [[mz ez] lz].
    apply round_aux_not_nan. exact H.
Qed.

Lemma ratio_some_one_iff (x : float) :
  Some (Some x) = Some (Some 1%float) <-> x = 1%float.
Proof. split; [intros H; injection H as H; exact H|intros ->; reflexivity]. Qed.

(** X1: for every length of at least one second (below 2^64, the range of
    [Duration::as_secs]) and times in chrono's range, [timebar_ratio] is a float
    in [0.0, 1.0]; in particular it is never NaN. *)
Theorem timebar_ratio_in_unit_interval (c : Clock) (len : TimeBarLength) (lr t : Time) :
  timebar_len c = Some len -> 1 <= as_secs len < 2 ^ 64 -> last_reset c = Some lr ->
  in_chrono_range lr -> in_chrono_range t ->
  exists r, timebar_ratio c t = Some (Some r)
    /\ (0 <=? r)%float = true /\ (r <=? 1)%float = true.
Proof.
  intros Hl Hk Hr Hlr Ht. rewrite (timebar_ratio_some c len lr t Hl Hr).
  eexists. split; [reflexivity|]. apply clamp01_in_range, ratio_quotient_not_nan.
  - apply num_seconds_small; assumption.
  - exact Hk.
Qed.

Definition custom_clock (d : Duration) (lr : Time) : Clock :=
  mkClock false false false false (Some d) None (Some lr) false.

Lemma timebar_ratio_in_unit_interval_witness :
  exists r, timebar_ratio (custom_clock 90000000000%N 0) (seconds 45 - 10) = Some (Some r)
    /\ (0 <=? r)%float = true /\ (r <=? 1)%float = true.
Proof.
  apply (timebar_ratio_in_unit_interval (custom_clock 90000000000%N 0) (Custom 90) 0);
    try reflexivity; unfold in_chrono_range, seconds, NANOS_PER_SEC; simpl; lia.
Defined.

Lemma ratio_full_iff (c : Clock) (len : TimeBarLength) (lr t : Time) :
  timebar_len c = Some len -> 0 <= as_secs len < 2 ^ 64 -> last_reset c = Some lr ->
  in_chrono_range lr -> in_chrono_range t ->
  timebar_ratio c t = Some (Some 1%float)
  <-> 1 <= num_seconds (t - lr) /\ as_secs len <= num_seconds (t - lr).
Proof.
  intros Hl Hk Hr Hlr Ht. rewrite (timebar_ratio_some c len lr t Hl Hr), ratio_some_one_iff.
  rewrite clamp_ratio_one by (try apply num_seconds_small; assumption). lia.
Qed.

(** X2: a [Custom] bar is reset by [maybe_reset_since_zero] exactly when its
    ratio at the reading [now1] is [1.0]; the new bar, anchored at [now3], is
    full again exactly once [num_seconds(t - now3) >= max(1, n)]. *)
Theorem custom_resets_exactly_when_full (off : Z) (c : Clock) (n : Z) (lr now1 now2 now3 : Time) :
  timebar_len c = Some (Custom n) -> 0 <= n < 2 ^ 64 -> last_reset c = Some lr ->
  in_chrono_range lr -> in_chrono_range now1 -> in_chrono_range now3 ->
  (timebar_ratio c now1 = Some (Some 1%float) ->
     maybe_reset_since_zero off c now1 now2 now3 = Some (set_last_reset c (Some now3)))
  /\ (timebar_ratio c now1 <> Some (Some 1%float) ->
     maybe_reset_since_zero off c now1 now2 now3 = Some c)
  /\ (forall t, in_chrono_range t ->
       timebar_ratio (set_last_reset c (Some now3)) t = Some (Some 1%float)
       <-> 1 <= num_seconds (t - now3) /\ n <= num_seconds (t - now3)).
Proof.
  intros Hl Hn Hr Hlr H1 H3.
  pose proof (ratio_full_iff c (Custom n) lr now1 Hl Hn Hr Hlr H1) as Hf. cbn [as_secs] in Hf.
  unfold maybe_reset_since_zero. rewrite Hl, Hr. cbn [as_secs].
  unfold signed_duration_since.
  split; [|split].
  - intros H. apply Hf in H.
    replace ((1 <=? num_seconds (now1 - lr)) && (n <=? num_seconds (now1 - lr))) with true
      by (symmetry; apply andb_true_intro; split; apply Z.leb_le; lia).
    reflexivity.
  - intros H.
    destruct ((1 <=? num_seconds (now1 - lr)) && (n <=? num_seconds (now1 - lr))) eqn:E;
      [|reflexivity].
    exfalso. apply H, Hf. apply andb_true_iff in E. rewrite !Z.leb_le in E. exact E.
  - intros t Ht.
    apply (ratio_full_iff (set_last_reset c (Some now3)) (Custom n) now3 t);
      try assumption; rewrite ?timebar_len_set_last_reset; try assumption; reflexivity.
Qed.

Lemma custom_resets_exactly_when_full_witness :
  maybe_reset_since_zero 0 (custom_clock 5000000000%N 0) (seconds 5) 0 (seconds 5)
  = Some (set_last_reset (custom_clock 5000000000%N 0) (Some (seconds 5))).
Proof.
  destruct (custom_resets_exactly_when_full 0 (custom_clock 5000000000%N 0) 5 0
              (seconds 5) 0 (seconds 5) eq_refl ltac:(lia) eq_refl)
    as [H _]; try (unfold in_chrono_range, seconds, NANOS_PER_SEC; lia).
  apply H. vm_compute. reflexivity.
Defined.

Lemma forall_below (P : Z -> Prop) (n : nat) :
  (forall m, (m < n)%nat -> P (Z.of_nat m)) -> forall k, 0 <= k < Z.of_nat n -> P k.
Proof.
  intros H k Hk. rewrite <- (Z2Nat.id k) by lia. apply H. lia.
Qed.

Lemma minute_ratio_table (k : Z) :
  0 <= k < 60 ->
  f64_clamp (int_as_f64 k / int_as_f64 60)%float 0 1 = (int_as_f64 k / 60)%float.
Proof.
  revert k. apply (forall_below (fun k => f64_clamp (int_as_f64 k / int_as_f64 60)%float 0 1 = (int_as_f64 k / 60)%float) 60). intros m Hm.
  do 60 (destruct m as [|m]; [vm_compute; reflexivity|]). lia.
Qed.

Lemma zero_ratio (k : Z) :
  1 <= k < 2 ^ 64 -> f64_clamp (int_as_f64 0 / int_as_f64 k)%float 0 1 = 0%float.
Proof.
  intros Hk. apply float_eq_Prim2SF. rewrite Prim2SF_zero.
  assert (Hy : exists My Ey, Prim2SF (int_as_f64 k) = S754_finite false My Ey).
  { destruct k as [|q|q]; try lia.
    destruct (Z_lt_le_dec (Zpos q) (2 ^ 53)) as [l|l].
    - destruct (Prim2SF_int_exact false q l) as [My [H _]]. eauto.
    - destruct (Prim2SF_int_large q (conj l (proj2 Hk))) as [My [Ey [H _]]]. eauto. }
  destruct Hy as [My [Ey Hy]].
  assert (Hq : Prim2SF (int_as_f64 0 / int_as_f64 k)%float = S754_zero false)
    by (rewrite div_spec, Prim2SF_int_zero, Hy; reflexivity).
  unfold f64_clamp.
  replace (int_as_f64 0 / int_as_f64 k <? 0)%float with false
    by (rewrite ltb_spec, Hq, Prim2SF_zero; reflexivity).
  replace (1 <? int_as_f64 0 / int_as_f64 k)%float with false
    by (rewrite ltb_spec, Hq, Prim2SF_one; reflexivity).
  exact Hq.
Qed.

Lemma num_seconds_seconds (k : Z) : num_seconds (seconds k) = k.
Proof. unfold num_seconds, seconds. apply Z.quot_mul. unfold NANOS_PER_SEC. lia. Qed.

(** X3: at the instant [now] of [setup], the ratio of a [Minute] bar is
    [second/60] as the f64 quotient (the anchor [with_second(0)] lies in the
    same local minute as [now], so under offsets that change on whole minutes it
    is exactly [second] seconds earlier), and a [Custom] or [Countup] bar of at
    least one second starts empty: its ratio is [0.0] (its anchor is [now]
    itself, whatever the local time zone does). *)
Theorem ratio_at_setup_instant (off : Z) (c c' : Clock) (now : Time) :
  setup off c now = Some c' ->
  (timebar_len c = Some Minute ->
     timebar_ratio c' now = Some (Some (int_as_f64 (second off now) / 60)%float))
  /\ (forall n, timebar_len c = Some (Custom n) \/ timebar_len c = Some (Countup n) ->
     1 <= n < 2 ^ 64 -> timebar_ratio c' now = Some (Some 0%float)).
Proof.
  unfold setup, setup_last_reset, with_second0. intros Hs.
  split.
  - intros Hl. rewrite Hl in Hs. injection Hs as <-.
    rewrite (timebar_ratio_some _ Minute (now - seconds (second off now)))
      by (rewrite ?timebar_len_set_last_reset; assumption || reflexivity).
    replace (now - (now - seconds (second off now))) with (seconds (second off now)) by lia.
    rewrite num_seconds_seconds. cbn [as_secs].
    rewrite minute_ratio_table; [reflexivity|]. apply Z.mod_pos_bound. lia.
  - intros n [Hl|Hl] Hn; rewrite Hl in Hs; injection Hs as <-.
    + rewrite (timebar_ratio_some _ (Custom n) now)
        by (rewrite ?timebar_len_set_last_reset; assumption || reflexivity).
      replace (now - now) with 0 by lia. rewrite zero_ratio by exact Hn. reflexivity.
    + rewrite (timebar_ratio_some _ (Countup n) now)
        by (rewrite ?timebar_len_set_last_reset; assumption || reflexivity).
      replace (now - now) with 0 by lia. rewrite zero_ratio by exact Hn. reflexivity.
Qed.

Definition t_14_37_25_4 : Time := seconds (14 * 3600 + 37 * 60 + 25) + 400000000.

Lemma ratio_at_setup_instant_witness :
  exists c', setup 0 (clock_of_args false true false false None None) t_14_37_25_4 = Some c'
    /\ timebar_ratio c' t_14_37_25_4 = Some (Some (int_as_f64 25 / 60)%float).
Proof.
  eexists. split; [reflexivity|].
  destruct (ratio_at_setup_instant 0 (clock_of_args false true false false None None) _
              t_14_37_25_4 eq_refl) as [H _].
  rewrite (H eq_refl). reflexivity.
Defined.

(** ** The frame of [Clock::run]: the rounded local time, printed and split *)

(** [SubsecRound::round_subsecs(0)] of chrono on a [DateTime<Local>]: the
    nanoseconds [delta_down] of the second are dropped, or the instant is moved
    up to the next whole second when that is at most as far ([delta_up <=
    delta_down], so half a second rounds up).  The local offset is a whole number
    of seconds, so the local nanoseconds are those of the instant. *)
Definition round_subsecs0 (t : Time) : Time :=
  let span := NANOS_PER_SEC in
  let delta_down := Z.modulo t span in
  if 0 <? delta_down then
    let delta_up := span - delta_down in
    if delta_up <=? delta_down then t + delta_up else t - delta_down
  else t.

(** The proleptic Gregorian date [(year, month, day)] of chrono's [NaiveDate]
    lying [z] days after 1970-01-01 (the days-to-civil computation over 400-year
    eras). *)
Definition civil_from_days (z : Z) : Z * Z * Z :=
  let z := z + 719468 in
  let era := Z.div z 146097 in
  let doe := z - era * 146097 in
  let yoe := (doe - doe / 1460 + doe / 36524 - doe / 146096) / 365 in
  let y := yoe + era * 400 in
  let doy := doe - (365 * yoe + yoe / 4 - yoe / 100) in
  let mp := (5 * doy + 2) / 153 in
  let d := doy - (153 * mp + 2) / 5 + 1 in
  let m := if mp <? 10 then mp + 3 else mp - 9 in
  (if m <=? 2 then y + 1 else y, m, d).

(** [x as u8] *)
Definition as_u8 (n : Z) : Z := Z.modulo n 256.

Definition digit_char (n : Z) : Ascii.ascii := Ascii.ascii_of_nat (48 + Z.to_nat n).

(** chrono's [write_hundreds(w, n: u8)]: two digits, an error from [n >= 100]. *)
Definition write_hundreds (n : Z) : option string :=
  if 100 <=? n then None
  else Some (String (digit_char (n / 10)) (String (digit_char (n mod 10)) EmptyString)).

(** The decimal digits of a non-negative integer (Rust's [{}] on it). *)
Definition dec (n : Z) : string := DecimalString.NilEmpty.string_of_uint (N.to_uint (Z.to_N n)).

Fixpoint zeros (k : nat) : string :=
  match k with
  | O => EmptyString
  | S k' => String "0"%char (zeros k')
  end.

(** [{:0w}] of a non-negative integer: zero-padded to at least [w] characters. *)
Definition pad0 (w : nat) (n : Z) : string :=
  let s := dec n in (zeros (w - String.length s) ++ s)%string.

(** [{:+05}] of an [i32]: the sign always, then the absolute value zero-padded so
    that the whole is at least five characters. *)
Definition fmt_plus05 (y : Z) : string :=
  String (if y <? 0 then "-"%char else "+"%char) (pad0 4 (Z.abs y)).

(** [impl Debug for NaiveDate] (which [Display] calls): [YYYY-MM-DD] for a year
    in [0..=9999], the signed year otherwise; [None] = [fmt::Error]. *)
Definition fmt_date (year month day : Z) : option string :=
  let y :=
    if (0 <=? year) && (year <=? 9999) then
      match write_hundreds (as_u8 (Z.quot year 100)), write_hundreds (as_u8 (Z.rem year 100)) with
      | Some a, Some b => Some (a ++ b)%string
      | _, _ => None
      end
    else Some (fmt_plus05 year) in
  match y, write_hundreds (as_u8 month), write_hundreds (as_u8 day) with
  | Some a, Some b, Some c => Some (a ++ "-" ++ b ++ "-" ++ c)%string
  | _, _, _ => None
  end.

(** The fraction [NaiveTime]'s [Debug] appends: nothing for zero nanoseconds,
    else 3, 6 or 9 digits. *)
Definition fmt_frac (nano : Z) : string :=
  if nano =? 0 then EmptyString
  else if nano mod 1000000 =? 0 then String "."%char (pad0 3 (nano / 1000000))
  else if nano mod 1000 =? 0 then String "."%char (pad0 6 (nano / 1000))
  else String "."%char (pad0 9 nano).

(** [impl Debug for NaiveTime] (which [Display] calls) on [HH:MM:SS] and the
    nanoseconds of the second (below [10^9] here: [Local::now()] never yields a
    leap second). *)
Definition fmt_time (hour min sec nano : Z) : option string :=
  match write_hundreds (as_u8 hour), write_hundreds (as_u8 min), write_hundreds (as_u8 sec) with
  | Some a, Some b, Some c => Some (a ++ ":" ++ b ++ ":" ++ c ++ fmt_frac nano)%string
  | _, _, _ => None
  end.

Section Frame.
Variable off : Z.

(** [t.naive_local().to_string()]: [impl Display for NaiveDateTime] writes the
    date, a space and the time; [None] = [to_string] panicking on a formatting
    error. *)
Definition naive_local_to_string (t : Time) : option string :=
  let ls := local_secs off t in
  let '(y, m, d) := civil_from_days (Z.div ls 86400) in
  let sod := Z.modulo ls 86400 in
  match fmt_date y m d, fmt_time (sod / 3600) (sod / 60 mod 60) (sod mod 60)
                                 (Z.modulo t NANOS_PER_SEC) with
  | Some a, Some b => Some (a ++ " " ++ b)%string
  | _, _ => None
  end.

End Frame.

(** [char::is_whitespace] on an ASCII character: tab, line feed, vertical tab,
    form feed, carriage return and space. *)
Definition is_whitespace (c : Ascii.ascii) : bool :=
  let n := Ascii.nat_of_ascii c in
  ((9 <=? n) && (n <=? 13))%nat || (n =? 32)%nat.

Fixpoint split_ws_from (s cur : string) : list string :=
  match s with
  | EmptyString => match cur with EmptyString => [] | _ => [cur] end
  | String c s' =>
      if is_whitespace c then
        match cur with EmptyString => [] | _ => [cur] end ++ split_ws_from s' EmptyString
      else split_ws_from s' (cur ++ String c EmptyString)%string
  end.

(** [str::split_whitespace(...).map(str::to_string).collect()]: the maximal
    non-empty runs of non-whitespace characters, in order. *)
Definition split_whitespace (s : string) : list string := split_ws_from s EmptyString.

(** One pass of the loop of [Clock::run] up to the redraw test: read the clock
    [now], round it to the second, print its local date-time, split it, and
    [uidata.update(splits[0], splits[1], self.timebar_ratio(raw_time + 1s))]
    ([None] = a panic: a formatting error, a missing piece, or the [unwrap] of
    [last_reset] in [timebar_ratio]).  [off] is the UTC offset the local time zone
    has at the rounded reading: [DateTime<Local>] arithmetic recomputes the offset
    for the new instant, and [naive_local] applies it. *)
Definition run_frame (off : Z) (c : Clock) (u : UiData) (now : Time) : option UiData :=
  let raw_time := round_subsecs0 now in
  match naive_local_to_string off raw_time with
  | None => None
  | Some str =>
      match split_whitespace str with
      | d :: t :: _ =>
          match timebar_ratio c (raw_time + seconds 1) with
          | None => update u d t None
          | Some None => None
          | Some (Some r) => update u d t (Some r)
          end
      | _ => None
      end
  end.

(** ** Facts about the frame *)

Lemma doy_bounds (doe : Z) : 0 <= doe < 146097 ->
  let yoe := (doe - doe / 1460 + doe / 36524 - doe / 146096) / 365 in
  0 <= doe - (365 * yoe + yoe / 4 - yoe / 100) <= 365.
Proof. intros H yoe. subst yoe. Z.div_mod_to_equations. lia. Qed.

Lemma month_day_bounds (doy : Z) : 0 <= doy <= 365 ->
  let mp := (5 * doy + 2) / 153 in
  0 <= mp <= 11 /\ 1 <= doy - (153 * mp + 2) / 5 + 1 <= 31.
Proof. intros H mp. subst mp. Z.div_mod_to_equations. lia. Qed.

Lemma civil_bounds (z y m d : Z) :
  civil_from_days z = (y, m, d) -> 1 <= m <= 12 /\ 1 <= d <= 31.
Proof.
  intros E. unfold civil_from_days in E. cbn zeta in E.
  set (w := z + 719468) in E.
  assert (Hdoe : 0 <= w - w / 146097 * 146097 < 146097) by (Z.div_mod_to_equations; lia).
  set (doe := w - w / 146097 * 146097) in *.
  pose proof (doy_bounds doe Hdoe) as Hdoy. cbv zeta in Hdoy.
  set (yoe := (doe - doe / 1460 + doe / 36524 - doe / 146096) / 365) in *.
  set (doy := doe - (365 * yoe + yoe / 4 - yoe / 100)) in *.
  pose proof (month_day_bounds doy Hdoy) as Hmd. cbv zeta in Hmd.
  set (mp := (5 * doy + 2) / 153) in *.
  destruct (mp <? 10) eqn:Hmp; apply Z.ltb_lt in Hmp || apply Z.ltb_ge in Hmp;
    destruct (_ <=? 2); apply pair_equal_spec in E as [E Hd]; apply pair_equal_spec in E as [_ Hm]; subst m d; lia.
Qed.

Fixpoint no_ws (s : string) : bool :=
  match s with
  | EmptyString => true
  | String c s' => negb (is_whitespace c) && no_ws s'
  end.

Lemma no_ws_app (a b : string) : no_ws (a ++ b) = no_ws a && no_ws b.
Proof. induction a as [|c a IH]; simpl; [reflexivity|]. rewrite IH, andb_assoc. reflexivity. Qed.

Lemma str_app_assoc (a b c : string) : ((a ++ b) ++ c = a ++ (b ++ c))%string.
Proof. induction a as [|x a IH]; simpl; congruence. Qed.

Lemma str_app_nil (a : string) : (a ++ EmptyString = a)%string.
Proof. induction a as [|x a IH]; simpl; congruence. Qed.

Lemma split_ws_from_app (D rest cur : string) :
  no_ws D = true -> split_ws_from (D ++ rest) cur = split_ws_from rest (cur ++ D).
Proof.
  revert cur. induction D as [|c D IH]; simpl; intros cur H.
  - rewrite str_app_nil. reflexivity.
  - apply andb_prop in H as [Hc HD]. apply negb_true_iff in Hc. rewrite Hc.
    rewrite (IH _ HD), str_app_assoc. reflexivity.
Qed.

Lemma split_two (D T : string) :
  no_ws D = true -> no_ws T = true -> D <> EmptyString -> T <> EmptyString ->
  split_whitespace (D ++ " " ++ T) = [D; T].
Proof.
  intros HD HT ND NT. unfold split_whitespace.
  rewrite (split_ws_from_app D _ _ HD). simpl.
  destruct D as [|x D]; [congruence|].
  rewrite <- (str_app_nil T) at 1. rewrite (split_ws_from_app T _ _ HT). simpl.
  destruct T; [congruence|]. reflexivity.
Qed.

Lemma digit_char_nat (k : Z) : 0 <= k < 10 ->
  Ascii.nat_of_ascii (digit_char k) = (48 + Z.to_nat k)%nat.
Proof. intros H. unfold digit_char. apply Ascii.nat_ascii_embedding. lia. Qed.

Lemma digit_not_ws (k : Z) : 0 <= k < 10 -> is_whitespace (digit_char k) = false.
Proof.
  intros H. unfold is_whitespace. rewrite (digit_char_nat k H).
  apply not_true_iff_false. rewrite orb_true_iff, andb_true_iff, !Nat.leb_le, Nat.eqb_eq. lia.
Qed.

Lemma digit_char_inj (a b : Z) : 0 <= a < 10 -> 0 <= b < 10 -> digit_char a = digit_char b -> a = b.
Proof.
  intros Ha Hb E. apply (f_equal Ascii.nat_of_ascii) in E.
  rewrite (digit_char_nat a Ha), (digit_char_nat b Hb) in E. lia.
Qed.

Lemma write_hundreds_small (n : Z) : 0 <= n < 100 ->
  write_hundreds (as_u8 n) =
    Some (String (digit_char (n / 10)) (String (digit_char (n mod 10)) EmptyString)).
Proof.
  intros H. unfold as_u8. rewrite Z.mod_small by lia. unfold write_hundreds.
  replace (100 <=? n) with false by (symmetry; apply Z.leb_gt; lia). reflexivity.
Qed.

Lemma two_digits_no_ws (n : Z) : 0 <= n < 100 ->
  no_ws (String (digit_char (n / 10)) (String (digit_char (n mod 10)) EmptyString)) = true.
Proof.
  intros H. cbn [no_ws]. rewrite !digit_not_ws; [reflexivity| |]; Z.div_mod_to_equations; lia.
Qed.

Lemma two_digits_inj (a b : Z) : 0 <= a < 100 -> 0 <= b < 100 ->
  digit_char (a / 10) = digit_char (b / 10) -> digit_char (a mod 10) = digit_char (b mod 10) ->
  a = b.
Proof.
  intros Ha Hb E1 E2.
  apply digit_char_inj in E1; [|Z.div_mod_to_equations; lia ..].
  apply digit_char_inj in E2; [|Z.div_mod_to_equations; lia ..].
  rewrite (Z.div_mod a 10), (Z.div_mod b 10) by lia. lia.
Qed.

Lemma no_ws_string_of_uint (u : Decimal.uint) : no_ws (DecimalString.NilEmpty.string_of_uint u) = true.
Proof. induction u; simpl; auto. Qed.

Lemma no_ws_zeros (k : nat) : no_ws (zeros k) = true.
Proof. induction k; simpl; auto. Qed.

Lemma no_ws_pad0 (w : nat) (n : Z) : no_ws (pad0 w n) = true.
Proof. unfold pad0, dec. rewrite no_ws_app, no_ws_zeros, no_ws_string_of_uint. reflexivity. Qed.

Lemma fmt_date_ok (y m d : Z) : 1 <= m <= 12 -> 1 <= d <= 31 ->
  exists D, fmt_date y m d = Some D /\ no_ws D = true /\ D <> EmptyString.
Proof.
  intros Hm Hd. unfold fmt_date.
  rewrite (write_hundreds_small m), (write_hundreds_small d) by lia.
  destruct ((0 <=? y) && (y <=? 9999)) eqn:Hy.
  - apply andb_prop in Hy as [Hy1 Hy2]. apply Z.leb_le in Hy1, Hy2.
    rewrite (write_hundreds_small (Z.quot y 100)), (write_hundreds_small (Z.rem y 100))
      by (rewrite ?Z.quot_div_nonneg, ?Z.rem_mod_nonneg by lia; Z.div_mod_to_equations; lia).
    eexists; split; [reflexivity|]. split; [|discriminate].
    rewrite !no_ws_app, !two_digits_no_ws by
      (rewrite ?Z.quot_div_nonneg, ?Z.rem_mod_nonneg by lia; Z.div_mod_to_equations; lia).
    reflexivity.
  - eexists; split; [reflexivity|]. split; [|unfold fmt_plus05; discriminate].
    rewrite !no_ws_app, !two_digits_no_ws by lia.
    unfold fmt_plus05. cbn [no_ws append]. rewrite no_ws_pad0. destruct (y <? 0); reflexivity.
Qed.

Lemma fmt_time_ok (h mi s : Z) : 0 <= h < 100 -> 0 <= mi < 100 -> 0 <= s < 100 ->
  fmt_time h mi s 0 =
    Some (String (digit_char (h / 10)) (String (digit_char (h mod 10))
         (String ":"%char (String (digit_char (mi / 10)) (String (digit_char (mi mod 10))
         (String ":"%char (String (digit_char (s / 10)) (String (digit_char (s mod 10))
          EmptyString)))))))).
Proof.
  intros Hh Hmi Hs. unfold fmt_time.
  rewrite (write_hundreds_small h), (write_hundreds_small mi), (write_hundreds_small s) by lia.
  reflexivity.
Qed.

Lemma round_subsecs0_spec (t : Time) :
  Z.modulo (round_subsecs0 t) NANOS_PER_SEC = 0 /\ Z.abs (round_subsecs0 t - t) <= 500000000.
Proof.
  unfold round_subsecs0, NANOS_PER_SEC.
  destruct (0 <? t mod 1000000000) eqn:H0;
    [destruct (1000000000 - t mod 1000000000 <=? t mod 1000000000) eqn:H1|];
    rewrite ?Z.ltb_lt, ?Z.ltb_ge, ?Z.leb_le, ?Z.leb_gt in *;
    Z.div_mod_to_equations; lia.
Qed.

Lemma sod_fields (ls : Z) :
  (ls mod 86400) / 3600 = Z.modulo (ls / 3600) 24 /\
  Z.modulo ((ls mod 86400) / 60) 60 = Z.modulo (ls / 60) 60 /\
  Z.modulo (ls mod 86400) 60 = Z.modulo ls 60.
Proof. Z.div_mod_to_equations. lia. Qed.

Lemma time_fields_determine (a b : Z) :
  Z.modulo (a / 3600) 24 = Z.modulo (b / 3600) 24 ->
  Z.modulo (a / 60) 60 = Z.modulo (b / 60) 60 ->
  Z.modulo a 60 = Z.modulo b 60 ->
  Z.abs (a - b) < 86400 -> a = b.
Proof. intros. Z.div_mod_to_equations. lia. Qed.

Definition hms_string (h mi s : Z) : string :=
  String (digit_char (h / 10)) (String (digit_char (h mod 10))
  (String ":"%char (String (digit_char (mi / 10)) (String (digit_char (mi mod 10))
  (String ":"%char (String (digit_char (s / 10)) (String (digit_char (s mod 10))
   EmptyString))))))).

Lemma frame_text (off : Z) (r : Time) : Z.modulo r NANOS_PER_SEC = 0 ->
  exists D, naive_local_to_string off r =
      Some (D ++ " " ++ hms_string (hour off r) (minute off r) (second off r))%string /\
    no_ws D = true /\ D <> EmptyString /\
    no_ws (hms_string (hour off r) (minute off r) (second off r)) = true /\
    fmt_time (hour off r) (minute off r) (second off r) 0 =
      Some (hms_string (hour off r) (minute off r) (second off r)).
Proof.
  intros Hr.
  assert (Hh : 0 <= hour off r < 24) by (apply Z.mod_pos_bound; lia).
  assert (Hm : 0 <= minute off r < 60) by (apply Z.mod_pos_bound; lia).
  assert (Hs : 0 <= second off r < 60) by (apply Z.mod_pos_bound; lia).
  unfold naive_local_to_string.
  destruct (civil_from_days _) as [[y m] d] eqn:Ec.
  destruct (civil_bounds _ _ _ _ Ec) as [Bm Bd].
  destruct (fmt_date_ok y m d Bm Bd) as (D & ED & WD & ND).
  rewrite ED, Hr.
  destruct (sod_fields (local_secs off r)) as (F1 & F2 & F3).
  rewrite F1, F2, F3. fold (hour off r) (minute off r) (second off r).
  rewrite fmt_time_ok by lia.
  exists D. repeat split; auto.
  unfold hms_string. cbn [no_ws].
  rewrite !digit_not_ws; [reflexivity| ..]; Z.div_mod_to_equations; lia.
Qed.

Lemma hms_string_inj (h1 m1 s1 h2 m2 s2 : Z) :
  0 <= h1 < 100 -> 0 <= m1 < 100 -> 0 <= s1 < 100 ->
  0 <= h2 < 100 -> 0 <= m2 < 100 -> 0 <= s2 < 100 ->
  hms_string h1 m1 s1 = hms_string h2 m2 s2 -> h1 = h2 /\ m1 = m2 /\ s1 = s2.
Proof.
  intros ? ? ? ? ? ? E. unfold hms_string in E.
  injection E as E1 E2 E3 E4 E5 E6.
  repeat split; apply two_digits_inj; assumption.
Qed.

Lemma ratio_no_panic (c : Clock) (x : Time) :
  (timebar_len c = None \/ last_reset c <> None) -> timebar_ratio c x <> Some None.
Proof.
  unfold timebar_ratio. intros H.
  destruct (timebar_len c), (last_reset c); try discriminate; destruct H; congruence.
Qed.

Lemma run_frame_update (off : Z) (c : Clock) (u : UiData) (n : Time) (D T : string) :
  naive_local_to_string off (round_subsecs0 n) = Some (D ++ " " ++ T)%string ->
  split_whitespace (D ++ " " ++ T) = [D; T] ->
  (timebar_len c = None \/ last_reset c <> None) ->
  exists r, run_frame off c u n = update u D T r.
Proof.
  intros E S H. unfold run_frame. rewrite E, S.
  destruct (timebar_ratio c (round_subsecs0 n + seconds 1)) as [[r|]|] eqn:Er; eauto.
  exfalso. exact (ratio_no_panic c _ H Er).
Qed.

Lemma changed_two_updates (s s1 s2 : UiData) (d t d' t' : string) (r r' : option float) :
  update s d t r = Some s1 -> update s1 d' t' r' = Some s2 ->
  (changed s2 = true <-> d <> d' \/ t <> t').
Proof.
  intros H1 H2. unfold changed.
  rewrite orb_true_iff, !negb_true_iff, !String.eqb_neq.
  destruct s as [[f0 f1] [t0 t1] [q0 q1] [|[|i]]]; simpl in H1;
    [| |rewrite update_none in H1 by (simpl; lia); discriminate];
    injection H1 as <-; simpl in H2; injection H2 as <-; simpl;
    split; intros [H|H]; auto.
Qed.

Lemma changed_first_update (s1 : UiData) (d t : string) (r : option float) :
  update uidata_default d t r = Some s1 -> (changed s1 = true <-> d <> EmptyString \/ t <> EmptyString).
Proof.
  intros H1. injection H1 as <-. unfold changed; cbn [fdate ftime fst snd].
  rewrite orb_true_iff, !negb_true_iff, !String.eqb_neq.
  split; intros [H|H]; auto.
Qed.

Lemma update_all_idx_step (l : list (string * string * option float)) (s s' : UiData) d t r :
  update_all uidata_default l = Some s -> update s d t r = Some s' ->
  update_all uidata_default (l ++ [(d, t, r)]) = Some s'.
Proof.
  revert s. assert (G : forall l s0 s, update_all s0 l = Some s -> update s d t r = Some s' ->
                         update_all s0 (l ++ [(d, t, r)]) = Some s').
  { induction l0 as [|[[d0 t0] r0] l0 IH]; simpl; intros s0 s1 E U.
    - injection E as ->. rewrite U. reflexivity.
    - destruct (update s0 d0 t0 r0); [|discriminate]. eapply IH; eauto. }
  intros s; apply G.
Qed.

Lemma rounded_eq_of_fields (off : Z) (r1 r2 n1 n2 : Time) :
  Z.modulo r1 NANOS_PER_SEC = 0 -> Z.modulo r2 NANOS_PER_SEC = 0 ->
  Z.abs (r1 - n1) <= 500000000 -> Z.abs (r2 - n2) <= 500000000 ->
  Z.abs (n2 - n1) < seconds 86399 ->
  hour off r1 = hour off r2 -> minute off r1 = minute off r2 -> second off r1 = second off r2 ->
  r1 = r2.
Proof.
  intros Hr1 Hr2 Hb1 Hb2 Hn Eh Em Es. unfold hour, minute, second in Eh, Em, Es.
  assert (Hls : local_secs off r1 = local_secs off r2).
  { apply time_fields_determine; try assumption. clear Eh Em Es.
    unfold seconds, local_secs, NANOS_PER_SEC in *. Z.div_mod_to_equations. lia. }
  unfold local_secs, NANOS_PER_SEC in *. Z.div_mod_to_equations. lia.
Qed.

(** X4: the main loop's frames, each read through the UTC offset the local
    zone has at its rounded reading ([off1], [off2]): [run_frame] from a
    reachable [UiData] never panics when the clock's bar has a [last_reset] (or
    there is no bar); its time piece is the two-digit [HH:MM:SS] of the reading
    rounded to the second, without a fraction; the first frame after
    [UiData::default()] always redraws; and for two readings less than 86399 s
    apart with no change of the offset between them, the second frame redraws
    ([changed()]) exactly when the two readings round to different seconds. *)
Theorem run_frames_redraw_iff_second_changes (off1 off2 : Z)
    (l : list (string * string * option float))
    (u : UiData) (c1 c2 : Clock) (n1 n2 : Time) :
  update_all uidata_default l = Some u ->
  (timebar_len c1 = None \/ last_reset c1 <> None) ->
  (timebar_len c2 = None \/ last_reset c2 <> None) ->
  Z.abs (n2 - n1) < seconds 86399 ->
  exists u1 u2,
    run_frame off1 c1 u n1 = Some u1 /\ run_frame off2 c2 u1 n2 = Some u2 /\
    (exists T, get_ftime u1 = Some T /\
       fmt_time (hour off1 (round_subsecs0 n1)) (minute off1 (round_subsecs0 n1))
                (second off1 (round_subsecs0 n1)) 0 = Some T) /\
    (u = uidata_default -> changed u1 = true) /\
    (off1 = off2 -> (changed u2 = true <-> round_subsecs0 n1 <> round_subsecs0 n2)).
Proof.
  intros Hl Hc1 Hc2 Hn.
  set (r1 := round_subsecs0 n1). set (r2 := round_subsecs0 n2).
  destruct (round_subsecs0_spec n1) as [Hr1 Hb1]. destruct (round_subsecs0_spec n2) as [Hr2 Hb2].
  fold r1 in Hr1, Hb1. fold r2 in Hr2, Hb2.
  destruct (frame_text off1 r1 Hr1) as (D1 & E1 & WD1 & ND1 & WT1 & FT1).
  destruct (frame_text off2 r2 Hr2) as (D2 & E2 & WD2 & ND2 & WT2 & FT2).
  set (T1 := hms_string (hour off1 r1) (minute off1 r1) (second off1 r1)) in *.
  set (T2 := hms_string (hour off2 r2) (minute off2 r2) (second off2 r2)) in *.
  assert (NT1 : T1 <> EmptyString) by (unfold T1, hms_string; discriminate).
  assert (NT2 : T2 <> EmptyString) by (unfold T2, hms_string; discriminate).
  destruct (run_frame_update off1 c1 u n1 D1 T1 E1 (split_two D1 T1 WD1 WT1 ND1 NT1) Hc1) as [q1 R1].
  destruct (update_some u D1 T1 q1 (update_all_idx l u Hl)) as (u1 & U1 & _).
  pose proof (update_all_idx_step l u u1 D1 T1 q1 Hl U1) as Hl1.
  destruct (run_frame_update off2 c2 u1 n2 D2 T2 E2 (split_two D2 T2 WD2 WT2 ND2 NT2) Hc2) as [q2 R2].
  destruct (update_some u1 D2 T2 q2 (update_all_idx _ u1 Hl1)) as (u2 & U2 & _).
  exists u1, u2. rewrite R1, R2. split; [exact U1|]. split; [exact U2|].
  split.
  { exists T1. split; [|exact FT1].
    destruct u as [[f0 f1] [t0 t1] [q0 q1'] [|[|i]]];
      [injection U1 as <-; reflexivity | injection U1 as <-; reflexivity |].
    rewrite update_none in U1 by (simpl; lia). discriminate. }
  split.
  { intros ->. apply (changed_first_update u1 D1 T1 q1 U1). left; exact ND1. }
  intros Hoff. subst off2.
  rewrite (changed_two_updates u u1 u2 D1 T1 D2 T2 q1 q2 U1 U2).
  split.
  - intros HD Heq.
    assert (ES : (D1 ++ " " ++ T1)%string = (D2 ++ " " ++ T2)%string)
      by (rewrite Heq in E1; congruence).
    apply (f_equal split_whitespace) in ES.
    rewrite (split_two D1 T1 WD1 WT1 ND1 NT1), (split_two D2 T2 WD2 WT2 ND2 NT2) in ES.
    destruct HD as [HD|HD]; apply HD; congruence.
  - intros Hne. right. intros HT. apply Hne.
    assert (B : forall x, 0 <= x < 60 -> 0 <= x < 100) by lia.
    assert (Bh : forall r, 0 <= hour off1 r < 100) by (intros; pose proof (Z.mod_pos_bound (Z.div (local_secs off1 r) 3600) 24); unfold hour; lia).
    assert (Bm : forall r, 0 <= minute off1 r < 100) by (intros; pose proof (Z.mod_pos_bound (Z.div (local_secs off1 r) 60) 60); unfold minute; lia).
    assert (Bs : forall r, 0 <= second off1 r < 100) by (intros; pose proof (Z.mod_pos_bound (local_secs off1 r) 60); unfold second; lia).
    destruct (hms_string_inj _ _ _ _ _ _ (Bh r1) (Bm r1) (Bs r1) (Bh r2) (Bm r2) (Bs r2) HT)
      as (Eh & Em & Es).
    exact (rounded_eq_of_fields off1 r1 r2 n1 n2 Hr1 Hr2 Hb1 Hb2 Hn Eh Em Es).
Qed.

Definition t_25_4 : Time := seconds 1729340245 + 400000000.

Lemma run_frames_redraw_iff_second_changes_witness :
  exists u1 u2,
    run_frame 7200 minute_clock uidata_default t_25_4 = Some u1 /\
    run_frame 7200 minute_clock u1 (t_25_4 + 300000000) = Some u2 /\
    changed u1 = true /\ changed u2 = true.
Proof.
  destruct (run_frames_redraw_iff_second_changes 7200 7200 [] uidata_default minute_clock minute_clock
              t_25_4 (t_25_4 + 300000000) eq_refl
              ltac:(right; simpl; discriminate)
              ltac:(right; simpl; discriminate)
              ltac:(vm_compute; reflexivity))
    as (u1 & u2 & R1 & R2 & _ & F & C).
  exists u1, u2. split; [exact R1|]. split; [exact R2|]. split; [exact (F eq_refl)|].
  apply (C eq_refl). vm_compute. discriminate.
Defined.

(** ** [Data] of src/clock/ui.rs and the [TimeBarLength] of src/clock/timebar.rs *)

Module UiRs.

(** [TimeBarLength] of src/clock/timebar.rs (with the [Timer] variant). *)
Inductive TimeBarLength :=
| Timer
| Minute
| Hour
| Custom (secs : Z)
| Countup (secs : Z)
| Day.

(** [TimeBarLength::as_secs] *)
Definition as_secs (l : TimeBarLength) : Z :=
  match l with
  | Minute => 60
  | Day => 24 * 60 * 60
  | Hour => 60 * 60
  | Timer => 1
  | Custom secs | Countup secs => secs
  end.

(** [self == TimeBarLength::Timer] ([#[derive(PartialEq)]]). *)
Definition is_timer (l : TimeBarLength) : bool :=
  match l with Timer => true | _ => false end.

Record Data := mkData {
  now : Time * Time;
  fdate : string * string;
  ftime : string * string;
  timebar_ratio : option float * option float;
  timebar_type : TimeBarLength;
  started_at : Time;
  idx : nat;
}.

(** [Data::new(timebar_type)], with [now0] the reading of [Local::now()];
    [DateTime::<Local>::default()] is the Unix epoch. *)
Definition new (tt : TimeBarLength) (now0 : Time) : Data :=
  let this := mkData (0, 0) (EmptyString, EmptyString) (EmptyString, EmptyString)
                     (None, None) tt now0 0 in
  mkData (now this) (fdate this) (ftime this) (timebar_ratio this) (timebar_type this)
         (round_subsecs0 (started_at this)) (idx this).

(** [Data::update] *)
Definition update (s : Data) (n : Time) (d t : string) (r : option float) : option Data :=
  let i := Nat.lxor (idx s) 1 in
  match arr_set (now s) i n, arr_set (fdate s) i d, arr_set (ftime s) i t,
        arr_set (timebar_ratio s) i r with
  | Some ns, Some fd, Some ft, Some rs => Some (mkData ns fd ft rs (timebar_type s) (started_at s) i)
  | _, _, _, _ => None
  end.

(** [Data::changed] *)
Definition changed (s : Data) : bool :=
  negb (String.eqb (fst (fdate s)) (snd (fdate s)))
  || negb (String.eqb (fst (ftime s)) (snd (ftime s))).

(** The accessors [fdate()], [ftime()], [now()] and [timebar_ratio()]; the last
    one answers [Some(0.0)] for a [Timer] whatever is stored. *)
Definition get_fdate (s : Data) : option string := arr_get (fdate s) (idx s).
Definition get_ftime (s : Data) : option string := arr_get (ftime s) (idx s).
Definition get_now (s : Data) : option Time := arr_get (now s) (idx s).
Definition get_timebar_ratio (s : Data) : option (option float) :=
  if is_timer (timebar_type s) then Some (Some 0%float) else arr_get (timebar_ratio s) (idx s).

Fixpoint update_all (s : Data) (l : list (Time * string * string * option float)) : option Data :=
  match l with
  | [] => Some s
  | (n, d, t, r) :: l' =>
      match update s n d t r with
      | Some s' => update_all s' l'
      | None => None
      end
  end.

End UiRs.

Lemma ui_update_step (s s' : UiRs.Data) n d t r :
  UiRs.update s n d t r = Some s' ->
  (UiRs.idx s = 0 /\ UiRs.idx s' = 1 \/ UiRs.idx s = 1 /\ UiRs.idx s' = 0)%nat /\
  UiRs.timebar_type s' = UiRs.timebar_type s /\ UiRs.started_at s' = UiRs.started_at s.
Proof.
  destruct s as [[n0 n1] [f0 f1] [t0 t1] [q0 q1] tt st [|[|i]]]; cbn; intros H;
    [injection H as <-; cbn; auto .. |].
  assert (E : (2 <= Nat.lxor (S (S i)) 1)%nat) by (apply lxor1_ge2; lia).
  unfold UiRs.update in H; cbn [UiRs.idx] in H.
  destruct (Nat.lxor (S (S i)) 1) as [|[|k]]; [lia | lia | discriminate H].
Qed.

Lemma ui_update_all_inv (tt : UiRs.TimeBarLength) (now0 : Time) l (s : UiRs.Data) :
  UiRs.update_all (UiRs.new tt now0) l = Some s ->
  (UiRs.idx s = 0 \/ UiRs.idx s = 1)%nat /\ UiRs.timebar_type s = tt /\
  UiRs.started_at s = round_subsecs0 now0.
Proof.
  assert (G : forall l s0 s, (UiRs.idx s0 = 0 \/ UiRs.idx s0 = 1)%nat -> UiRs.timebar_type s0 = tt ->
            UiRs.started_at s0 = round_subsecs0 now0 -> UiRs.update_all s0 l = Some s ->
            (UiRs.idx s = 0 \/ UiRs.idx s = 1)%nat /\ UiRs.timebar_type s = tt /\
            UiRs.started_at s = round_subsecs0 now0).
  { induction l0 as [|[[[n d] t] r] l' IH]; cbn; intros s0 s1 H0 H1 H2 H.
    - injection H as <-; auto.
    - destruct (UiRs.update s0 n d t r) as [s'|] eqn:E; [|discriminate].
      destruct (ui_update_step _ _ _ _ _ _ E) as (Hi & Ht & Hs).
      apply (IH s'); [destruct Hi as [[_ ->]|[_ ->]]; auto | congruence | congruence | exact H]. }
  intros H. apply (G l (UiRs.new tt now0)); [left | | |]; reflexivity || exact H.
Qed.

(** X5: the [Data] of src/clock/ui.rs: from [Data::new(tt)] (clock read at [now0])
    followed by any updates, the next [update(now, fdate, ftime, ratio)]
    succeeds; [now()], [fdate()] and [ftime()] then return what was passed,
    [timebar_ratio()] returns [Some(0.0)] for a [Timer] and the passed ratio
    otherwise; the bar type is kept, and [started_at] is still [now0] rounded
    to a whole second, at most half a second away from [now0]. *)
Theorem data_update_accessors (tt : UiRs.TimeBarLength) (now0 : Time)
    (l : list (Time * string * string * option float)) (s : UiRs.Data)
    (n : Time) (d t : string) (r : option float) :
  UiRs.update_all (UiRs.new tt now0) l = Some s ->
  exists s', UiRs.update s n d t r = Some s' /\
    UiRs.get_now s' = Some n /\ UiRs.get_fdate s' = Some d /\ UiRs.get_ftime s' = Some t /\
    UiRs.get_timebar_ratio s' = Some (if UiRs.is_timer tt then Some 0%float else r) /\
    UiRs.timebar_type s' = tt /\
    UiRs.started_at s' = round_subsecs0 now0 /\
    Z.modulo (UiRs.started_at s') NANOS_PER_SEC = 0 /\
    Z.abs (UiRs.started_at s' - now0) <= 500000000.
Proof.
  intros H. destruct (ui_update_all_inv tt now0 l s H) as (Hi & Ht & Hs).
  destruct (round_subsecs0_spec now0) as [R1 R2].
  destruct s as [[n0 n1] [f0 f1] [t0 t1] [q0 q1] tt' st [|[|i]]]; cbn in Hi, Ht, Hs;
    [| |lia]; subst tt' st; eexists; (split; [reflexivity|]); cbn;
    unfold UiRs.get_timebar_ratio; cbn; destruct (UiRs.is_timer tt); repeat split; auto.
Qed.

Lemma data_update_accessors_witness :
  exists s', UiRs.update (UiRs.new UiRs.Timer t_25_4) (t_25_4 + 300000000) "2024-10-19"%string
                 "14:17:26"%string (Some 0.5%float) = Some s' /\
    UiRs.get_timebar_ratio s' = Some (Some 0%float) /\
    UiRs.started_at s' = seconds 1729340245.
Proof.
  destruct (data_update_accessors UiRs.Timer t_25_4 [] (UiRs.new UiRs.Timer t_25_4)
              (t_25_4 + 300000000) "2024-10-19"%string "14:17:26"%string (Some 0.5%float) eq_refl)
    as (s' & U & _ & _ & _ & R & _ & S & _).
  exists s'. split; [exact U|]. split; [exact R|]. rewrite S. vm_compute. reflexivity.
Defined.

(** ** The ticks of the main loop after [setup] *)

(** [Clock::on_tick] *)
Definition on_tick (off : Z) (c : Clock) (now1 now2 now3 : Time) : option Clock :=
  maybe_reset_since_zero off c now1 now2 now3.

(** Successive [on_tick] calls, each with its three readings of [Local::now()]. *)
Fixpoint tick_all (off : Z) (c : Clock) (rs : list (Time * Time * Time)) : option Clock :=
  match rs with
  | [] => Some c
  | (n1, n2, n3) :: rs' =>
      match on_tick off c n1 n2 n3 with
      | None => None
      | Some c' => tick_all off c' rs'
      end
  end.

Lemma set_last_reset_twice (c : Clock) (a b : option Time) :
  set_last_reset (set_last_reset c a) b = set_last_reset c b.
Proof. destruct c; reflexivity. Qed.

Lemma maybe_reset_shape (off : Z) (c : Clock) (n1 n2 n3 : Time) :
  (timebar_len c = None \/ last_reset c <> None) ->
  exists c', maybe_reset_since_zero off c n1 n2 n3 = Some c' /\
             (c' = c \/ c' = set_last_reset c (Some n3)).
Proof.
  intros H. unfold maybe_reset_since_zero.
  destruct (timebar_len c) as [len|]; [|eauto].
  destruct (last_reset c) as [lr|]; [|destruct H; congruence].
  destruct len; repeat match goal with |- context [if ?b then _ else _] => destruct b end; eauto.
Qed.

Lemma setup_shape (off : Z) (c c1 : Clock) (now : Time) :
  setup off c now = Some c1 ->
  set_last_reset c1 None = set_last_reset c None /\
  (timebar_len c <> None -> exists a, last_reset c1 = Some a).
Proof.
  unfold setup, setup_last_reset, with_second0, with_minute0, with_hour0.
  destruct (timebar_len c) as [len|] eqn:L.
  - destruct len; intros H; injection H as <-;
      (split; [apply set_last_reset_twice | intros _; eexists; reflexivity]).
  - intros H; injection H as <-. split; [reflexivity | congruence].
Qed.

(** X6: after [setup] of a clock with a time bar, any sequence of [on_tick] calls
    succeeds (no [unwrap] panic); the resulting clock differs from the
    configured one only in [last_reset], which is the anchor [setup] chose or
    the third reading of one of the ticks; and [timebar_ratio] on it never
    panics, at any time. *)
Theorem ticks_after_setup (off : Z) (c c1 : Clock) (now0 : Time) (rs : list (Time * Time * Time)) :
  setup off c now0 = Some c1 ->
  timebar_len c <> None ->
  exists c2, tick_all off c1 rs = Some c2 /\
    set_last_reset c2 None = set_last_reset c None /\
    (exists a, last_reset c2 = Some a /\
       (last_reset c1 = Some a \/ exists n1 n2, In (n1, n2, a) rs)) /\
    (forall t, timebar_ratio c2 t <> Some None).
Proof.
  intros S L. destruct (setup_shape off c c1 now0 S) as [E1 A1].
  destruct (A1 L) as [a1 Ha1].
  assert (G : forall rs d a0, set_last_reset d None = set_last_reset c None ->
            last_reset d = Some a0 ->
            exists c2, tick_all off d rs = Some c2 /\
              set_last_reset c2 None = set_last_reset c None /\
              (exists a, last_reset c2 = Some a /\
                 (a = a0 \/ exists n1 n2, In (n1, n2, a) rs))).
  { induction rs0 as [|[[n1 n2] n3] rs' IH]; intros d a0 Ed Ea; cbn [tick_all].
    - exists d. split; [reflexivity|]. split; [exact Ed|]. exists a0; auto.
    - unfold on_tick.
      destruct (maybe_reset_shape off d n1 n2 n3 ltac:(right; congruence))
        as (d' & Md & Hd'). rewrite Md.
      destruct Hd' as [-> | ->].
      + destruct (IH d a0 Ed Ea) as (c2 & T & E2 & b & Hb & Src).
        exists c2. split; [exact T|]. split; [exact E2|]. exists b. split; [exact Hb|].
        destruct Src as [->|(m1 & m2 & Hin)]; [left; reflexivity|right; exists m1, m2; right; exact Hin].
      + destruct (IH (set_last_reset d (Some n3)) n3) as (c2 & T & E2 & b & Hb & Src);
          [rewrite set_last_reset_twice; exact Ed | reflexivity |].
        exists c2. split; [exact T|]. split; [exact E2|]. exists b. split; [exact Hb|].
        right. destruct Src as [->|(m1 & m2 & Hin)]; [exists n1, n2; left; reflexivity|].
        exists m1, m2; right; exact Hin. }
  destruct (G rs c1 a1 E1 Ha1) as (c2 & T & E2 & b & Hb & Src).
  exists c2. split; [exact T|]. split; [exact E2|]. split.
  - exists b. split; [exact Hb|]. destruct Src as [->|Hin]; [left; exact Ha1|right; exact Hin].
  - intros t. apply ratio_no_panic. right. congruence.
Qed.

Definition custom5_clock : Clock := clock_of_args false false false false (Some 5000000000%N) None.

Definition ticks_5s : list (Time * Time * Time) :=
  [(t_25_4 + seconds 1, t_25_4 + seconds 1, t_25_4 + seconds 1);
   (t_25_4 + seconds 5, t_25_4 + seconds 5, t_25_4 + seconds 5);
   (t_25_4 + seconds 6, t_25_4 + seconds 6, t_25_4 + seconds 6)].

Lemma ticks_after_setup_witness :
  exists c2, setup 7200 custom5_clock t_25_4 = Some (set_last_reset custom5_clock (Some t_25_4)) /\
    tick_all 7200 (set_last_reset custom5_clock (Some t_25_4)) ticks_5s = Some c2 /\
    last_reset c2 = Some (t_25_4 + seconds 5).
Proof.
  destruct (ticks_after_setup 7200 custom5_clock (set_last_reset custom5_clock (Some t_25_4))
              t_25_4 ticks_5s eq_refl ltac:(vm_compute; discriminate))
    as (c2 & T & _ & _ & _).
  exists c2. split; [reflexivity|]. split; [exact T|].
  vm_compute in T. injection T as <-. reflexivity.
Defined.
